(** * Dashboard-Creation-Platform: the tabular ETL and analysis engine

    A shallow embedding of the three engine classes of the repository,
    - [ETLProcessor]          (schema inference, cleaning, de-duplication, quality report),
    - [DataImputation]        (lib/data-imputation.ts),
    - [EnhancedETLProcessor]  (lib/enhanced-etl-processor.ts: correlations, outliers),
    over a model of the JavaScript values they compute with, followed by
    the properties of the engine.

    JavaScript numbers are IEEE 754 binary64 values and are modelled by
    Rocq's primitive floats, so every arithmetic step below rounds exactly
    as the engine does.  Array lengths, counters and indices, which are
    integers far below 2^53, are kept as [nat] and converted with [of_nat]
    where the code mixes them into floating-point arithmetic. *)

From Stdlib Require Import ZArith List String Ascii Bool Lia Floats DecimalString Sorted.
From stdpp Require Import gmap strings.
Import ListNotations.

Set Default Proof Using "Type".
Set Warnings "-inexact-float".

(* ================================================================= *)
(** * Part I.  The JavaScript runtime                                  *)
(* ================================================================= *)

Module JS.

(** ** Numbers *)

Definition number := float.

(** The number nearest to an integer (exact below 2^53). *)
Definition of_Z (z : Z) : number := SF2Prim (binary_normalize prec emax z 0 false).
Definition of_nat (n : nat) : number := of_Z (Z.of_nat n).

Definition is_neg_zero (x : number) : bool := PrimFloat.is_zero x && PrimFloat.get_sign x.

(** [a > b], [a < b], [a === b] on numbers. *)
Definition gt (a b : number) : bool := PrimFloat.ltb b a.
Definition lt (a b : number) : bool := PrimFloat.ltb a b.
Definition num_eq (a b : number) : bool := PrimFloat.eqb a b.

(** [Math.max(a, b)] and [Math.min(a, b)]: NaN is contagious and +0 is
    larger than -0. *)
Definition Math_max2 (a b : number) : number :=
  if PrimFloat.is_nan a || PrimFloat.is_nan b then PrimFloat.nan
  else if PrimFloat.ltb a b then b
  else if PrimFloat.ltb b a then a
  else if is_neg_zero a then b else a.

Definition Math_min2 (a b : number) : number :=
  if PrimFloat.is_nan a || PrimFloat.is_nan b then PrimFloat.nan
  else if PrimFloat.ltb a b then a
  else if PrimFloat.ltb b a then b
  else if is_neg_zero a then a else b.

(** [Math.max(...xs)] and [Math.min(...xs)]. *)
Definition Math_max (xs : list number) : number := fold_left Math_max2 xs PrimFloat.neg_infinity.
Definition Math_min (xs : list number) : number := fold_left Math_min2 xs PrimFloat.infinity.

Definition Math_abs (x : number) : number := PrimFloat.abs x.
Definition Math_sqrt (x : number) : number := PrimFloat.sqrt x.

(** [Math.pow(x, 2)].  The engine only ever squares; the product is the
    correctly rounded square. *)
Definition Math_pow2 (x : number) : number := PrimFloat.mul x x.

(** [Math.floor]: a finite non-integral [x] is [(-1)^s * m * 2^e] with
    [e < 0]; its floor is an integer of magnitude below 2^53. *)
Definition Math_floor (x : number) : number :=
  match Prim2SF x with
  | S754_finite s m e =>
      if (0 <=? e)%Z then x
      else of_Z (Z.shiftr (if s then Z.neg m else Z.pos m) (- e))
  | _ => x
  end.

Definition Math_ceil (x : number) : number := PrimFloat.opp (Math_floor (PrimFloat.opp x)).

(** [Math.round]: the nearest integer, ties towards +Infinity; a negative
    argument that rounds to zero gives -0. *)
Definition Math_round (x : number) : number :=
  match Prim2SF x with
  | S754_finite s m e =>
      if (0 <=? e)%Z then x
      else
        let k := (- e)%Z in
        let r := Z.shiftr ((if s then Z.neg m else Z.pos m) + Z.shiftl 1 (k - 1)) k in
        if (r =? 0)%Z && s then PrimFloat.neg_zero else of_Z r
  | _ => x
  end.

(** [x % 1]: what is left of [x] after its integral part, with the sign of
    [x]; NaN for NaN and the infinities. *)
Definition rem1 (x : number) : number :=
  match Prim2SF x with
  | S754_nan | S754_infinity _ => PrimFloat.nan
  | S754_zero _ => x
  | S754_finite s m e =>
      if (0 <=? e)%Z then (if s then PrimFloat.neg_zero else PrimFloat.zero)
      else
        let f := Z.land (Z.pos m) (Z.ones (- e)) in
        SF2Prim (binary_normalize prec emax (if s then (- f)%Z else f) e s)
  end.

(** The integer [Math.floor(x)] as an index, for finite [x]. *)
Definition floorZ (x : number) : option Z :=
  match Prim2SF x with
  | S754_zero _ => Some 0%Z
  | S754_finite s m e => Some (Z.shiftl (if s then Z.neg m else Z.pos m) e)
  | _ => None
  end.

(** ** Strings

    A string is its sequence of code units; the model covers the code
    units 0..255 (one [ascii] each). *)

Definition code (c : ascii) : N := N_of_ascii c.

(** WhiteSpace and LineTerminator code units: TAB, LF, VT, FF, CR, SP, NBSP. *)
Definition is_white_space (c : ascii) : bool :=
  let n := code c in
  ((9 <=? n) && (n <=? 13) || (n =? 32) || (n =? 160))%N.

Fixpoint trimStart (s : string) : string :=
  match s with
  | EmptyString => EmptyString
  | String c s' => if is_white_space c then trimStart s' else s
  end.

Fixpoint trimEnd (s : string) : string :=
  match s with
  | EmptyString => EmptyString
  | String c s' =>
      let t := trimEnd s' in
      if is_white_space c && String.eqb t EmptyString then EmptyString else String c t
  end.

(** [s.trim()] *)
Definition trim (s : string) : string := trimEnd (trimStart s).

Definition string_of_Z (z : Z) : string := NilZero.string_of_int (Z.to_int z).

Fixpoint repeat_char (c : ascii) (n : nat) : string :=
  match n with
  | O => EmptyString
  | S n' => String c (repeat_char c n')
  end.

(** *** String to number *)

Definition digit_of (base : Z) (c : ascii) : option Z :=
  let n := Z.of_N (code c) in
  let d :=
    if (48 <=? n)%Z && (n <=? 57)%Z then Some (n - 48)%Z
    else if (97 <=? n)%Z && (n <=? 102)%Z then Some (n - 87)%Z
    else if (65 <=? n)%Z && (n <=? 70)%Z then Some (n - 55)%Z
    else None in
  match d with
  | Some v => if (v <? base)%Z then Some v else None
  | None => None
  end.

(** The longest prefix of digits in [base], and what follows it. *)
Fixpoint take_digits (base : Z) (cs : list ascii) : list Z * list ascii :=
  match cs with
  | [] => ([], [])
  | c :: cs' =>
      match digit_of base c with
      | Some d => let '(ds, rest) := take_digits base cs' in (d :: ds, rest)
      | None => ([], cs)
      end
  end.

Definition digits_value (base : Z) (ds : list Z) : Z :=
  fold_left (fun acc d => (base * acc + d)%Z) ds 0%Z.

(** The number nearest to [(-1)^neg * M * 10^E] (round to nearest, ties to
    even).  Beyond the decimal exponents 400 and -400 the result is
    already an infinity or a zero. *)
Definition decimal_value (neg : bool) (M E : Z) : number :=
  match M with
  | Z.pos m =>
      let len := Z.of_nat (String.length (string_of_Z M)) in
      if (400 <? E)%Z then (if neg then PrimFloat.neg_infinity else PrimFloat.infinity)
      else if (len + E <? -400)%Z then (if neg then PrimFloat.neg_zero else PrimFloat.zero)
      else if (0 <=? E)%Z then
        SF2Prim (binary_normalize prec emax ((if neg then Z.neg m else Z.pos m) * 10 ^ E) 0 false)
      else
        match (10 ^ (- E))%Z with
        | Z.pos d => SF2Prim (SFdiv prec emax (S754_finite neg m 0) (S754_finite false d 0))
        | _ => PrimFloat.nan
        end
  | _ => if neg then PrimFloat.neg_zero else PrimFloat.zero
  end.

Definition is_exp_mark (c : ascii) : bool := ((code c =? 101) || (code c =? 69))%N.

(** StrUnsignedDecimalLiteral without [Infinity]: digits, an optional
    fraction, an optional exponent; the whole input must be consumed. *)
Definition parse_unsigned_decimal (cs : list ascii) : option (Z * Z) :=
  let '(ip, r1) := take_digits 10 cs in
  let '(fp, r2) :=
    match r1 with
    | c :: r => if (code c =? 46)%N then take_digits 10 r else ([], r1)
    | [] => ([], r1)
    end in
  match ip ++ fp with
  | [] => None
  | ds =>
      let M := digits_value 10 ds in
      let shift := Z.of_nat (List.length fp) in
      match r2 with
      | [] => Some (M, (- shift)%Z)
      | c :: r =>
          if is_exp_mark c then
            let '(eneg, r') :=
              match r with
              | c' :: r'' =>
                  if (code c' =? 45)%N then (true, r'')
                  else if (code c' =? 43)%N then (false, r'')
                  else (false, r)
              | [] => (false, r)
              end in
            match take_digits 10 r' with
            | ((_ :: _) as es, []) =>
                let e := digits_value 10 es in
                Some (M, ((if eneg then - e else e) - shift)%Z)
            | _ => None
            end
          else None
      end
  end.

(** NonDecimalIntegerLiteral: 0x, 0o, 0b and at least one digit. *)
Definition parse_non_decimal (cs : list ascii) : option Z :=
  match cs with
  | z :: p :: ((_ :: _) as ds) =>
      if (code z =? 48)%N then
        let base :=
          if ((code p =? 120) || (code p =? 88))%N then Some 16%Z
          else if ((code p =? 111) || (code p =? 79))%N then Some 8%Z
          else if ((code p =? 98) || (code p =? 66))%N then Some 2%Z
          else None in
        match base with
        | Some b =>
            match take_digits b ds with
            | (vs, []) => Some (digits_value b vs)
            | _ => None
            end
        | None => None
        end
      else None
  | _ => None
  end.

(** [Number(s)] for a string: StringToNumber of ECMAScript. *)
Definition StringToNumber (s : string) : number :=
  let t := trim s in
  if String.eqb t EmptyString then PrimFloat.zero
  else
    match parse_non_decimal (list_ascii_of_string t) with
    | Some z => of_Z z
    | None =>
        let '(neg, body) :=
          match t with
          | String c r =>
              if (code c =? 45)%N then (true, r)
              else if (code c =? 43)%N then (false, r)
              else (false, t)
          | EmptyString => (false, t)
          end in
        if String.eqb body "Infinity" then
          (if neg then PrimFloat.neg_infinity else PrimFloat.infinity)
        else
          match parse_unsigned_decimal (list_ascii_of_string body) with
          | Some (M, E) => decimal_value neg M E
          | None => PrimFloat.nan
          end
    end.

(** *** Number to string

    [Number::toString]: the shortest decimal numeral that reads back as
    the same number, the closest such numeral when there are several. *)

(** [x = xn / xd] is below [10^n]. *)
Definition below_pow10 (xn xd n : Z) : bool :=
  if (0 <=? n)%Z then (xn <? xd * 10 ^ n)%Z else (xn * 10 ^ (- n) <? xd)%Z.

(** The [n] with [10^(n-1) <= x < 10^n], from an estimate. *)
Fixpoint settle_exponent (fuel : nat) (xn xd n : Z) : Z :=
  match fuel with
  | O => n
  | S fuel' =>
      if negb (below_pow10 xn xd n) then settle_exponent fuel' xn xd (n + 1)
      else if below_pow10 xn xd (n - 1) then settle_exponent fuel' xn xd (n - 1)
      else n
  end.

(** The [k]-digit numerals [s * 10^(n-k)] next to [x] that read back as
    [x]; a numeral that reaches [10^k] is [10^(k-1)] one decade up. *)
Definition numeral_candidate (x : number) (xn xd n k : Z) : option (Z * Z) :=
  let sc := (k - n)%Z in
  let '(num, den) :=
    if (0 <=? sc)%Z then ((xn * 10 ^ sc)%Z, xd) else (xn, (xd * 10 ^ (- sc))%Z) in
  let lo := (num / den)%Z in
  let hi := (lo + 1)%Z in
  let ok (s : Z) :=
    (10 ^ (k - 1) <=? s)%Z && (s <=? 10 ^ k)%Z && PrimFloat.eqb (decimal_value false s (n - k)) x in
  let dlo := (num - lo * den)%Z in
  let dhi := (hi * den - num)%Z in
  let pick (s : Z) := if (s =? 10 ^ k)%Z then ((10 ^ (k - 1))%Z, (n + 1)%Z) else (s, n) in
  match ok lo, ok hi with
  | true, true =>
      Some (pick (if (dlo <? dhi)%Z then lo
                  else if (dhi <? dlo)%Z then hi
                  else if Z.even lo then lo else hi))
  | true, false => Some (pick lo)
  | false, true => Some (pick hi)
  | false, false => None
  end.

Fixpoint shortest_numeral (fuel : nat) (x : number) (xn xd n k : Z) : Z * Z :=
  match fuel with
  | O => (0%Z, 0%Z)
  | S fuel' =>
      match numeral_candidate x xn xd n k with
      | Some r => r
      | None => shortest_numeral fuel' x xn xd n (k + 1)
      end
  end.

Definition sub_string (from len : Z) (s : string) : string :=
  String.substring (Z.to_nat from) (Z.to_nat len) s.

Definition zeros (n : Z) : string := repeat_char "0"%char (Z.to_nat n).

Definition format_numeral (s n : Z) : string :=
  let ds := string_of_Z s in
  let k := Z.of_nat (String.length ds) in
  if (k <=? n)%Z && (n <=? 21)%Z then (ds ++ zeros (n - k))%string
  else if (0 <? n)%Z && (n <=? 21)%Z then
    (sub_string 0 n ds ++ "." ++ sub_string n (k - n) ds)%string
  else if (-6 <? n)%Z && (n <=? 0)%Z then ("0." ++ zeros (- n) ++ ds)%string
  else
    let e := (n - 1)%Z in
    let es := ((if (0 <=? e)%Z then "+" else "-") ++ string_of_Z (Z.abs e))%string in
    if (k =? 1)%Z then (ds ++ "e" ++ es)%string
    else (sub_string 0 1 ds ++ "." ++ sub_string 1 (k - 1) ds ++ "e" ++ es)%string.

(** [String(x)] for a number. *)
Definition NumberToString (x : number) : string :=
  match Prim2SF x with
  | S754_nan => "NaN"
  | S754_zero _ => "0"
  | S754_infinity s => if s then "-Infinity" else "Infinity"
  | S754_finite s m e =>
      let '(xn, xd) :=
        if (0 <=? e)%Z then ((Z.pos m * 2 ^ e)%Z, 1%Z) else (Z.pos m, (2 ^ (- e))%Z) in
      let b := (Z.pos (digits2_pos m) + e)%Z in
      let n := settle_exponent 8 xn xd (b * 30103 / 100000)%Z in
      let '(d, n') := shortest_numeral 17 (PrimFloat.abs x) xn xd n 1 in
      ((if s then "-" else EmptyString) ++ format_numeral d n')%string
  end.

(** [`${n}`] for a counter. *)
Definition nat_to_string (n : nat) : string := NumberToString (of_nat n).

(** *** JSON string quoting *)

Definition backslash : ascii := ascii_of_N 92.
Definition dquote : string := String (ascii_of_N 34) EmptyString.

Definition hex_digit (n : N) : ascii :=
  ascii_of_N (if (n <? 10)%N then 48 + n else 87 + n).

Definition quote_char (c : ascii) : string :=
  let n := code c in
  if (n =? 34)%N then String backslash dquote
  else if (n =? 92)%N then String backslash (String backslash EmptyString)
  else if (n =? 8)%N then "\b"
  else if (n =? 12)%N then "\f"
  else if (n =? 10)%N then "\n"
  else if (n =? 13)%N then "\r"
  else if (n =? 9)%N then "\t"
  else if (n <? 32)%N then
    ("\u00" ++ String (hex_digit (n / 16)) (String (hex_digit (n mod 16)) EmptyString))%string
  else String c EmptyString.

Fixpoint quote_body (s : string) : string :=
  match s with
  | EmptyString => EmptyString
  | String c s' => (quote_char c ++ quote_body s')%string
  end.

(** ** Values

    The scalars a cell of a row can hold. *)

Inductive value : Type :=
| VNull
| VUndefined
| VBool (b : bool)
| VNum (x : number)
| VStr (s : string).

Inductive type_tag : Type := TyUndefined | TyObject | TyBoolean | TyNumber | TyString.

(** [typeof v] ([typeof null] is ["object"]). *)
Definition typeof (v : value) : type_tag :=
  match v with
  | VNull => TyObject
  | VUndefined => TyUndefined
  | VBool _ => TyBoolean
  | VNum _ => TyNumber
  | VStr _ => TyString
  end.

(** [v === w] *)
Definition strict_eq (v w : value) : bool :=
  match v, w with
  | VNull, VNull => true
  | VUndefined, VUndefined => true
  | VBool a, VBool b => Bool.eqb a b
  | VNum a, VNum b => PrimFloat.eqb a b
  | VStr a, VStr b => String.eqb a b
  | _, _ => false
  end.

(** SameValueZero, the equality of [Set]: like [===] but NaN equals NaN. *)
Definition same_value_zero (v w : value) : bool :=
  match v, w with
  | VNum a, VNum b => PrimFloat.eqb a b || (PrimFloat.is_nan a && PrimFloat.is_nan b)
  | _, _ => strict_eq v w
  end.

(** [Number(v)] *)
Definition ToNumber (v : value) : number :=
  match v with
  | VNull => PrimFloat.zero
  | VUndefined => PrimFloat.nan
  | VBool b => if b then PrimFloat.one else PrimFloat.zero
  | VNum x => x
  | VStr s => StringToNumber s
  end.

(** [String(v)] *)
Definition ToString (v : value) : string :=
  match v with
  | VNull => "null"
  | VUndefined => "undefined"
  | VBool b => if b then "true" else "false"
  | VNum x => NumberToString x
  | VStr s => s
  end.

(** The global [isNaN(v)]. *)
Definition isNaN (v : value) : bool := PrimFloat.is_nan (ToNumber v).

(** Truthiness, as in [if (v)] and [a || b]. *)
Definition truthy (v : value) : bool :=
  match v with
  | VNull | VUndefined => false
  | VBool b => b
  | VNum x => negb (PrimFloat.is_zero x || PrimFloat.is_nan x)
  | VStr s => negb (String.eqb s EmptyString)
  end.

(** [new Set(vs).size]: the distinct values of [vs] in first-seen order. *)
Fixpoint Set_of (vs : list value) (seen : list value) : list value :=
  match vs with
  | [] => seen
  | v :: vs' =>
      if existsb (same_value_zero v) seen then Set_of vs' seen
      else Set_of vs' (seen ++ [v])
  end.

(** ** Arrays

    [xs.sort(compare)] is stable; [after x y] says that [compare(x, y)]
    is positive, that is, [y] goes first. *)

Section Sort.
Context {A : Type} (after : A -> A -> bool).

Fixpoint sort_insert (x : A) (sorted : list A) : list A :=
  match sorted with
  | [] => [x]
  | y :: sorted' => if after x y then y :: sort_insert x sorted' else x :: sorted
  end.

Definition Array_sort (xs : list A) : list A := fold_right sort_insert [] xs.

End Sort.

(** [(a, b) => a - b] is positive. *)
Definition ascending (a b : number) : bool := PrimFloat.ltb PrimFloat.zero (PrimFloat.sub a b).

(** ** Objects

    An object is the list of its own string-keyed properties in
    enumeration order: keys that are array indices in ascending numeric
    order first, then the other keys in the order of their creation.
    A row is read through its own properties: column names are taken
    to differ from the names of the members every object literal
    inherits from [Object.prototype].  The frequency table of the mode
    imputation, whose keys are cell values, is read through the
    prototype (see [DataImputation.tally]). *)

Definition obj (A : Type) : Type := list (string * A).

(** The index a key denotes when it is the canonical numeral of an
    integer in [0, 2^32 - 2]. *)
Definition array_index (k : string) : option Z :=
  match take_digits 10 (list_ascii_of_string k) with
  | ((_ :: _) as ds, []) =>
      let v := digits_value 10 ds in
      if String.eqb (string_of_Z v) k && (v <? 2 ^ 32 - 1)%Z then Some v else None
  | _ => None
  end.

(** A property created under key [k] is enumerated before an existing
    property [k']. *)
Definition key_before (k k' : string) : bool :=
  match array_index k, array_index k' with
  | Some i, Some j => (i <? j)%Z
  | Some _, None => true
  | None, _ => false
  end.

Section Objects.
Context {A : Type}.

(** [o[k]], [None] when [o] has no own property [k]. *)
Fixpoint prop_get (o : obj A) (k : string) : option A :=
  match o with
  | [] => None
  | (k', v) :: o' => if String.eqb k' k then Some v else prop_get o' k
  end.

Fixpoint prop_replace (o : obj A) (k : string) (v : A) : obj A :=
  match o with
  | [] => []
  | (k', v') :: o' => if String.eqb k' k then (k, v) :: o' else (k', v') :: prop_replace o' k v
  end.

Fixpoint prop_create (o : obj A) (k : string) (v : A) : obj A :=
  match o with
  | [] => [(k, v)]
  | (k', v') :: o' => if key_before k k' then (k, v) :: o else (k', v') :: prop_create o' k v
  end.

(** [o[k] = v]: an existing property keeps its place. *)
Definition prop_set (o : obj A) (k : string) (v : A) : obj A :=
  match prop_get o k with
  | Some _ => prop_replace o k v
  | None => prop_create o k v
  end.

Definition Object_entries (o : obj A) : list (string * A) := o.
Definition Object_keys (o : obj A) : list string := map fst o.
Definition Object_values (o : obj A) : list A := map snd o.

End Objects.

(** The names of the members an object literal inherits from
    [Object.prototype]. *)
Definition Object_prototype_members : list string :=
  [ "constructor"; "__defineGetter__"; "__defineSetter__"; "hasOwnProperty";
    "__lookupGetter__"; "__lookupSetter__"; "isPrototypeOf"; "propertyIsEnumerable";
    "toString"; "valueOf"; "__proto__"; "toLocaleString" ]%string.

Definition inherited (k : string) : bool := existsb (String.eqb k) Object_prototype_members.

(** ** Errors

    The one error the modelled code throws is the [TypeError] of reading
    a property of [undefined]; the wording of its message is the
    engine's.  A call either returns or throws. *)

Inductive Error : Type := TypeError.

Inductive completion (A : Type) : Type :=
| Return (a : A)
| Throw (e : Error).

Arguments Return {A} a.
Arguments Throw {A} e.

(** A row of a dataset; [row[c]] is [undefined] for a missing column. *)
Definition Row : Type := obj value.

Definition cell (r : Row) (c : string) : value :=
  match prop_get r c with
  | Some v => v
  | None => VUndefined
  end.

(** [JSON.stringify(row)]: properties holding [undefined] are left out,
    non-finite numbers are written [null]. *)
Definition JSON_quote (s : string) : string := (dquote ++ quote_body s ++ dquote)%string.

Definition JSON_value (v : value) : option string :=
  match v with
  | VUndefined => None
  | VNull => Some "null"%string
  | VBool b => Some (if b then "true" else "false")%string
  | VNum x => Some (if PrimFloat.is_finite x then NumberToString x else "null"%string)
  | VStr s => Some (JSON_quote s)
  end.

Fixpoint JSON_members (o : Row) : list string :=
  match o with
  | [] => []
  | (k, v) :: o' =>
      match JSON_value v with
      | Some t => (JSON_quote k ++ ":" ++ t)%string :: JSON_members o'
      | None => JSON_members o'
      end
  end.

Definition JSON_stringify (o : Row) : string :=
  ("{" ++ String.concat "," (JSON_members o) ++ "}")%string.

(** ** Dates

    A date is its time value: milliseconds since the epoch, or NaN.
    [Date.parse] must read the ISO interchange format; whatever else it
    accepts is up to the engine, so it is a parameter of the model. *)

Class DateEngine : Type := { Date_parse : string -> number }.

Definition TimeClip (t : number) : number :=
  if negb (PrimFloat.is_finite t) then PrimFloat.nan
  else if PrimFloat.ltb 8.64e15 (PrimFloat.abs t) then PrimFloat.nan
  else
    match Prim2SF t with
    | S754_finite s m e =>
        if (0 <=? e)%Z then t
        else of_Z ((if s then -1 else 1) * Z.shiftr (Z.pos m) (- e))
    | _ => PrimFloat.zero
    end.

(** The time value of [new Date(v)]. *)
Definition Date_new `{DateEngine} (v : value) : number :=
  match v with
  | VStr s => TimeClip (Date_parse s)
  | _ => TimeClip (ToNumber v)
  end.

(** Year, month (1..12) and day of a day number counted from the epoch. *)
Definition civil_from_days (day : Z) : Z * Z * Z :=
  let z := (day + 719468)%Z in
  let era := (z / 146097)%Z in
  let doe := (z - era * 146097)%Z in
  let yoe := ((doe - doe / 1460 + doe / 36524 - doe / 146096) / 365)%Z in
  let doy := (doe - (365 * yoe + yoe / 4 - yoe / 100))%Z in
  let mp := ((5 * doy + 2) / 153)%Z in
  let d := (doy - (153 * mp + 2) / 5 + 1)%Z in
  let m := (if (mp <? 10)%Z then mp + 3 else mp - 9)%Z in
  let y := (yoe + era * 400 + (if (m <=? 2)%Z then 1 else 0))%Z in
  (y, m, d).

Definition days_from_civil (y m d : Z) : Z :=
  let y' := (if (m <=? 2)%Z then y - 1 else y)%Z in
  let era := (y' / 400)%Z in
  let yoe := (y' - era * 400)%Z in
  let doy := ((153 * (if (2 <? m)%Z then m - 3 else m + 9) + 2) / 5 + d - 1)%Z in
  let doe := (yoe * 365 + yoe / 4 - yoe / 100 + doy)%Z in
  (era * 146097 + doe - 719468)%Z.

Definition pad (width : nat) (z : Z) : string :=
  let s := string_of_Z z in
  (repeat_char "0"%char (width - String.length s) ++ s)%string.

(** [d.toISOString()] for a valid time value [t]. *)
Definition Date_toISOString (t : number) : string :=
  let tz := match floorZ t with Some z => z | None => 0%Z end in
  let day := (tz / 86400000)%Z in
  let ms := (tz mod 86400000)%Z in
  let '(y, m, d) := civil_from_days day in
  let year :=
    if (0 <=? y)%Z && (y <=? 9999)%Z then pad 4 y
    else ((if (y <? 0)%Z then "-" else "+") ++ pad 6 (Z.abs y))%string in
  (year ++ "-" ++ pad 2 m ++ "-" ++ pad 2 d ++ "T"
     ++ pad 2 (ms / 3600000) ++ ":" ++ pad 2 (ms / 60000 mod 60) ++ ":"
     ++ pad 2 (ms / 1000 mod 60) ++ "." ++ pad 3 (ms mod 1000) ++ "Z")%string.

(** *** A reference engine

    [Date.parse] restricted to the interchange format
    [YYYY-MM-DDTHH:mm:ss.sssZ] and its shorter forms, with UTC as the
    local time zone; every other string is unrecognised (NaN). *)

Fixpoint read_digits (n : nat) (cs : list ascii) (acc : Z) : option (Z * list ascii) :=
  match n with
  | O => Some (acc, cs)
  | S n' =>
      match cs with
      | c :: cs' => d ← digit_of 10 c; read_digits n' cs' (10 * acc + d)%Z
      | [] => None
      end
  end.

Definition starts_with (ch : N) (cs : list ascii) : option (list ascii) :=
  match cs with
  | c :: r => if (code c =? ch)%N then Some r else None
  | [] => None
  end.

Definition days_in_month (y m : Z) : Z :=
  if (m =? 2)%Z then
    (if ((y mod 4 =? 0) && negb (y mod 100 =? 0) || (y mod 400 =? 0))%Z then 29 else 28)%Z
  else if ((m =? 4) || (m =? 6) || (m =? 9) || (m =? 11))%Z then 30%Z
  else 31%Z.

(** Year, month and day, defaulting to the first month and day. *)
Definition read_iso_date (cs : list ascii) : option (Z * Z * Z * list ascii) :=
  '(y, r) ←
    match cs with
    | c :: r =>
        if (code c =? 43)%N then read_digits 6 r 0%Z
        else if (code c =? 45)%N then
          '(y, r') ← read_digits 6 r 0%Z;
          if (y =? 0)%Z then None else Some ((- y)%Z, r')
        else read_digits 4 cs 0%Z
    | [] => None
    end;
  match starts_with 45 r with
  | None => Some (y, 1%Z, 1%Z, r)
  | Some r1 =>
      '(m, r2) ← read_digits 2 r1 0%Z;
      match starts_with 45 r2 with
      | None => Some (y, m, 1%Z, r2)
      | Some r3 => '(d, r4) ← read_digits 2 r3 0%Z; Some (y, m, d, r4)
      end
  end.

(** Milliseconds into the day, after the [T]. *)
Definition read_iso_time (cs : list ascii) : option (Z * list ascii) :=
  '(h, r1) ← read_digits 2 cs 0%Z;
  r2 ← starts_with 58 r1;
  '(mi, r3) ← read_digits 2 r2 0%Z;
  '(sec, ms, r) ←
    match starts_with 58 r3 with
    | None => Some (0%Z, 0%Z, r3)
    | Some r4 =>
        '(sec, r5) ← read_digits 2 r4 0%Z;
        match starts_with 46 r5 with
        | None => Some (sec, 0%Z, r5)
        | Some r6 => '(ms, r7) ← read_digits 3 r6 0%Z; Some (sec, ms, r7)
        end
    end;
  if ((h <=? 24) && (mi <=? 59) && (sec <=? 59)
      && ((h <? 24) || ((mi =? 0) && (sec =? 0) && (ms =? 0))))%Z
  then Some ((h * 3600000 + mi * 60000 + sec * 1000 + ms)%Z, r)
  else None.

(** The offset from UTC in milliseconds: [Z], [+HH:mm], [-HH:mm], or none. *)
Definition read_iso_offset (cs : list ascii) : option Z :=
  match cs with
  | [] => Some 0%Z
  | c :: r =>
      if (code c =? 90)%N then (match r with [] => Some 0%Z | _ => None end)
      else if ((code c =? 43) || (code c =? 45))%N then
        '(h, r1) ← read_digits 2 r 0%Z;
        r2 ← starts_with 58 r1;
        '(mi, r3) ← read_digits 2 r2 0%Z;
        match r3 with
        | [] =>
            if ((h <=? 23) && (mi <=? 59))%Z then
              Some ((if (code c =? 45)%N then -1 else 1) * (h * 3600000 + mi * 60000))%Z
            else None
        | _ => None
        end
      else None
  end.

Definition parse_iso (s : string) : number :=
  let r :=
    '(y, m, d, r1) ← read_iso_date (list_ascii_of_string s);
    if negb ((1 <=? m) && (m <=? 12) && (1 <=? d) && (d <=? days_in_month y m))%Z then None
    else
      '(ms, off) ←
        match r1 with
        | [] => Some (0%Z, 0%Z)
        | _ =>
            r2 ← starts_with 84 r1;
            '(ms, r3) ← read_iso_time r2;
            off ← read_iso_offset r3;
            Some (ms, off)
        end;
      Some (days_from_civil y m d * 86400000 + ms - off)%Z in
  match r with
  | Some t => if (Z.abs t <=? 8640000000000000)%Z then of_Z t else PrimFloat.nan
  | None => PrimFloat.nan
  end.

Definition isoDates : DateEngine := {| Date_parse := parse_iso |}.

End JS.

(* ================================================================= *)
(** * Part II.  The engine                                             *)
(* ================================================================= *)

(** ** [ETLProcessor]: schema inference, cleaning, quality report *)

Module ETLProcessor.
Import JS.

Inductive ColumnType : Type := string_t | number_t | date_t | boolean_t.

Record ColumnStats : Type := {
  min : option number;
  max : option number;
  avg : option number;
  nullCount : nat;
  uniqueCount : nat
}.

Record DataColumn : Type := {
  name : string;
  type : ColumnType;
  nullable : bool;
  unique : bool;
  stats : option ColumnStats
}.

Record DataQualityReport : Type := {
  totalRows : nat;
  totalColumns : nat;
  duplicateRows : nat;
  nullValues : nat;
  dataTypes : obj ColumnType;
  qualityScore : number;
  issues : list string;
  suggestions : list string
}.

Record ProcessedData : Type := {
  data : list Row;
  columns : list DataColumn;
  qualityReport : DataQualityReport;
  originalRowCount : nat;
  cleanedRowCount : nat
}.

(** [val !== null && val !== undefined && val !== ''] *)
Definition has_value (val : value) : bool :=
  negb (strict_eq val VNull) && negb (strict_eq val VUndefined)
  && negb (strict_eq val (VStr EmptyString)).

Definition is_boolean_like (val : value) : bool :=
  match typeof val with TyBoolean => true | _ => false end
  || strict_eq val (VStr "true") || strict_eq val (VStr "false")
  || strict_eq val (VStr "1") || strict_eq val (VStr "0").

Definition is_number_like (val : value) : bool :=
  negb (PrimFloat.is_nan (ToNumber val)) && negb (strict_eq val (VStr EmptyString)).

Definition is_date_like `{DateEngine} (val : value) : bool :=
  negb (PrimFloat.is_nan (Date_parse (ToString val))).

(** The body of the [headers.map] of [detectDataTypes]. *)
Definition detectColumn `{DateEngine} (data : list Row) (header : string) : DataColumn :=
  let values := List.filter has_value (map (fun row => cell row header) data) in
  let nullCount := (List.length data - List.length values)%nat in
  let uniqueValues := Set_of values [] in
  let type :=
    if forallb is_boolean_like values then boolean_t
    else if forallb is_number_like values then number_t
    else if forallb is_date_like values then date_t
    else string_t in
  let stats :=
    match type with
    | number_t =>
        {| min := Some (Math_min (map ToNumber values));
           max := Some (Math_max (map ToNumber values));
           avg := Some (PrimFloat.div
                          (fold_left (fun sum val => PrimFloat.add sum (ToNumber val)) values
                                     PrimFloat.zero)
                          (of_nat (List.length values)));
           nullCount := nullCount;
           uniqueCount := List.length uniqueValues |}
    | _ =>
        {| min := None; max := None; avg := None;
           nullCount := nullCount;
           uniqueCount := List.length uniqueValues |}
    end in
  {| name := header;
     type := type;
     nullable := (0 <? nullCount)%nat;
     unique := (List.length uniqueValues =? List.length values)%nat;
     stats := Some stats |}.

Definition detectDataTypes `{DateEngine} (data : list Row) (headers : list string)
  : list DataColumn :=
  map (detectColumn data) headers.

(** One cell of [cleanData], by the detected type of its column. *)
Definition cleanCell `{DateEngine} (column : DataColumn) (val : value) : value :=
  if negb (has_value val) then VNull
  else
    match type column with
    | number_t =>
        let numValue := ToNumber val in
        if PrimFloat.is_nan numValue then VNull else VNum numValue
    | boolean_t =>
        match val with
        | VBool _ => val
        | _ => VBool (strict_eq val (VStr "true") || strict_eq val (VStr "1")
                      || strict_eq val (VNum PrimFloat.one))
        end
    | date_t =>
        let dateValue := Date_new val in
        if PrimFloat.is_nan dateValue then VNull else VStr (Date_toISOString dateValue)
    | string_t => VStr (trim (ToString val))
    end.

Definition cleanRow `{DateEngine} (columns : list DataColumn) (row : Row) : Row :=
  fold_left
    (fun cleanedRow column =>
       prop_set cleanedRow (name column) (cleanCell column (cell row (name column))))
    columns [].

Definition cleanData `{DateEngine} (data : list Row) (columns : list DataColumn) : list Row :=
  map (cleanRow columns) data.

(** [removeDuplicates]: the loop state is the set of keys seen, the rows
    kept and the counter. *)
Definition dedupStep (st : gset string * list Row * nat) (row : Row)
  : gset string * list Row * nat :=
  let '(seen, uniqueData, duplicateCount) := st in
  let key := JSON_stringify row in
  if decide (key ∈ seen) then (seen, uniqueData, S duplicateCount)
  else ({[ key ]} ∪ seen, uniqueData ++ [row], duplicateCount).

Definition removeDuplicates (data : list Row) : list Row * nat :=
  let '(_, uniqueData, duplicateCount) := fold_left dedupStep data (∅, [], O) in
  (uniqueData, duplicateCount).

Definition stats_nullCount (col : DataColumn) : nat :=
  match stats col with
  | Some s => nullCount s
  | None => O
  end.

(** The messages of [generateQualityReport]. *)
Definition duplicatesIssue (duplicateCount : nat) : string :=
  ("Found " ++ nat_to_string duplicateCount ++ " duplicate rows")%string.

Definition missingIssue (nullValues : nat) : string :=
  ("High number of missing values (" ++ nat_to_string nullValues ++ ")")%string.

Definition columnIssue (col : string) : string :=
  ("Column " ++ dquote ++ col ++ dquote ++ " has >50% missing values")%string.

Definition columnSuggestion (col : string) : string :=
  ("Consider removing or imputing values for column " ++ dquote ++ col ++ dquote)%string.

(** The per-column pass of [generateQualityReport] over [issues] and
    [suggestions]. *)
Definition columnPass (totalRows : nat) (acc : list string * list string) (col : DataColumn)
  : list string * list string :=
  let '(issues, suggestions) := acc in
  match stats col with
  | Some s =>
      if gt (of_nat (nullCount s)) (PrimFloat.mul (of_nat totalRows) 0.5)
      then (issues ++ [columnIssue (name col)], suggestions ++ [columnSuggestion (name col)])
      else (issues, suggestions)
  | None => (issues, suggestions)
  end.

Definition generateQualityReport (data : list Row) (columns : list DataColumn)
    (originalRowCount duplicateCount : nat) : DataQualityReport :=
  let totalRows := List.length data in
  let totalColumns := List.length columns in
  let nullValues := fold_left (fun sum col => (sum + stats_nullCount col)%nat) columns O in
  let '(issues, suggestions) :=
    if (0 <? duplicateCount)%nat
    then ([duplicatesIssue duplicateCount],
          ["Consider reviewing data source for duplicate entries"%string])
    else ([], []) in
  let '(issues, suggestions) :=
    if gt (of_nat nullValues)
          (PrimFloat.mul (PrimFloat.mul (of_nat totalRows) (of_nat totalColumns)) 0.1)
    then (issues ++ [missingIssue nullValues],
          suggestions ++ ["Consider data imputation or additional data collection"%string])
    else (issues, suggestions) in
  let '(issues, suggestions) := fold_left (columnPass totalRows) columns (issues, suggestions) in
  let qualityScore := 100%float in
  let qualityScore :=
    (qualityScore - (of_nat duplicateCount / of_nat originalRowCount) * 20)%float in
  let qualityScore :=
    (qualityScore - (of_nat nullValues / (of_nat totalRows * of_nat totalColumns)) * 30)%float in
  let qualityScore := (qualityScore - of_nat (List.length issues) * 5)%float in
  let qualityScore := Math_max2 0%float (Math_min2 100%float qualityScore) in
  {| totalRows := totalRows;
     totalColumns := totalColumns;
     duplicateRows := duplicateCount;
     nullValues := nullValues;
     dataTypes := fold_left (fun acc col => prop_set acc (name col) (type col)) columns [];
     qualityScore := Math_round qualityScore;
     issues := issues;
     suggestions := suggestions |}.

(** [transformData]: drop empty rows, infer the schema, coerce the cells,
    drop duplicates, report. *)
Definition transformData `{DateEngine} (rawData : list Row) (headers : list string)
  : ProcessedData :=
  let originalRowCount := List.length rawData in
  let cleanedData := List.filter (fun row => existsb has_value (Object_values row)) rawData in
  let columns := detectDataTypes cleanedData headers in
  let cleanedData := cleanData cleanedData columns in
  let '(deduplicatedData, duplicateCount) := removeDuplicates cleanedData in
  let qualityReport :=
    generateQualityReport deduplicatedData columns originalRowCount duplicateCount in
  {| data := deduplicatedData;
     columns := columns;
     qualityReport := qualityReport;
     originalRowCount := originalRowCount;
     cleanedRowCount := List.length deduplicatedData |}.

End ETLProcessor.

(** ** [DataImputation]: filling missing cells (lib/data-imputation.ts)

    The strategies write into the row objects they are handed, so rows
    live in a store and a data array is a list of references into it.
    [[...data]] copies the array, not the rows: the copy is the same list
    of references. *)

Module DataImputation.
Import JS.

Inductive Method : Type :=
| mean | median | mode | forward_fill | backward_fill | interpolation | custom.

Record ImputationStrategy : Type := {
  column : string;
  method : Method;
  customValue : value
}.

Record ImputationResult : Type := {
  originalNullCount : nat;
  imputedCount : Z;
  methodUsed : Method;
  success : bool;
  error : option Error
}.

Definition ref : Type := nat.
Definition store : Type := ref -> Row.

(** [row[column]] and [row[column] = v] through a reference. *)
Definition read (h : store) (row : ref) (column : string) : value := cell (h row) column.

Definition write (h : store) (row : ref) (column : string) (v : value) : store :=
  fun r => if Nat.eqb r row then prop_set (h row) column v else h r.

Definition isNullOrEmpty (val : value) : bool :=
  strict_eq val VNull || strict_eq val VUndefined || strict_eq val (VStr EmptyString)
  || match val with
     | VStr s => String.eqb (trim s) EmptyString
     | _ => false
     end.

Definition countNullValues (h : store) (data : list ref) (column : string) : nat :=
  List.length
    (List.filter
       (fun row =>
          strict_eq (read h row column) VNull
          || strict_eq (read h row column) VUndefined
          || strict_eq (read h row column) (VStr EmptyString)
          || match read h row column with
             | VStr s => String.eqb (trim s) EmptyString
             | _ => false
             end)
       data).

(** The [data.forEach] that ends the mean, median, mode and custom
    strategies: write [v] into every cell that is null or empty. *)
Definition fillStep (column : string) (v : value) (h : store) (row : ref) : store :=
  if isNullOrEmpty (read h row column) then write h row column v else h.

Definition fillEach (h : store) (data : list ref) (column : string) (v : value) : store :=
  fold_left (fillStep column v) data h.

(** [val !== null && val !== undefined && val !== ''] *)
Definition present (val : value) : bool :=
  negb (strict_eq val VNull) && negb (strict_eq val VUndefined)
  && negb (strict_eq val (VStr EmptyString)).

Definition numeric (val : value) : bool := present val && negb (isNaN val).

Definition sum (xs : list number) : number := fold_left PrimFloat.add xs PrimFloat.zero.

(** [xs[i]] where the value is used as a number. *)
Definition at_index (xs : list number) (i : nat) : number := nth i xs PrimFloat.nan.

Definition imputeWithMean (h : store) (data : list ref) (column : string) : store :=
  let validValues :=
    map ToNumber (List.filter numeric (map (fun row => read h row column) data)) in
  if (List.length validValues =? 0)%nat then h
  else
    let mean := PrimFloat.div (sum validValues) (of_nat (List.length validValues)) in
    fillEach h data column (VNum mean).

Definition imputeWithMedian (h : store) (data : list ref) (column : string) : store :=
  let validValues :=
    Array_sort ascending
      (map ToNumber (List.filter numeric (map (fun row => read h row column) data))) in
  let n := List.length validValues in
  if (n =? 0)%nat then h
  else
    let median :=
      if (n mod 2 =? 0)%nat
      then PrimFloat.div
             (PrimFloat.add (at_index validValues (n / 2 - 1)) (at_index validValues (n / 2)))
             2%float
      else at_index validValues (n / 2) in
    fillEach h data column (VNum median).

(** What a property of the frequency table of [imputeWithMode] holds: a
    count, or, under a key that names a member of [Object.prototype], the
    text that [+ 1] makes of that member (the source text of a function
    followed by 1s), which arithmetic reads as NaN. *)
Inductive Frequency : Type := Count (n : nat) | MemberText.

(** [frequencies[key] = (frequencies[key] || 0) + 1], keyed by
    [String(val)].  The read goes through the prototype: under a key the
    table does not own but inherits, it finds a member of
    [Object.prototype], which is truthy, and [+ 1] appends to its text.
    The write creates an own property, except under ["__proto__"], whose
    setter ignores a string. *)
Definition tally (frequencies : obj Frequency) (val : value) : obj Frequency :=
  let key := ToString val in
  match prop_get frequencies key with
  | Some (Count n) => prop_set frequencies key (Count (n + 1))
  | Some MemberText => prop_set frequencies key MemberText
  | None =>
      if String.eqb key "__proto__" then frequencies
      else if inherited key then prop_set frequencies key MemberText
      else prop_set frequencies key (Count (0 + 1))
  end.

(** [([, a], [, b]) => b - a] is positive.  With a text on either side
    the difference is NaN, which [sort] takes as 0. *)
Definition byCountDescending (x y : string * Frequency) : bool :=
  match snd x, snd y with
  | Count a, Count b => (a <? b)%nat
  | _, _ => false
  end.

(** [sorted[0][0]] reads index 0 of [undefined] when the table is empty,
    which is the case when every valid value is ["__proto__"]: the call
    then throws before it writes.  (A table that holds a text next to two
    different counts makes the comparison inconsistent; the order [sort]
    gives is then the engine's, the order below that of a stable
    insertion.) *)
Definition imputeWithMode (h : store) (data : list ref) (column : string)
  : completion store :=
  let validValues := List.filter present (map (fun row => read h row column) data) in
  if (List.length validValues =? 0)%nat then Return h
  else
    let frequencies := fold_left tally validValues [] in
    match Array_sort byCountDescending (Object_entries frequencies) with
    | first :: _ => let mode := fst first in Return (fillEach h data column (VStr mode))
    | [] => Throw TypeError
    end.

(** The body shared by the two fill loops; the state is the store and
    the last valid value seen ([null] at first). *)
Definition carryStep (column : string) (st : store * value) (row : ref) : store * value :=
  let '(h, lastValidValue) := st in
  if negb (isNullOrEmpty (read h row column)) then (h, read h row column)
  else if negb (strict_eq lastValidValue VNull)
       then (write h row column lastValidValue, lastValidValue)
       else (h, lastValidValue).

Definition imputeWithForwardFill (h : store) (data : list ref) (column : string) : store :=
  fst (fold_left (carryStep column) data (h, VNull)).

(** The loop runs [i] from [data.length - 1] down to [0]. *)
Definition imputeWithBackwardFill (h : store) (data : list ref) (column : string) : store :=
  fst (fold_left (carryStep column) (rev data) (h, VNull)).

(** The two [while] loops of the interpolation: the nearest index below
    [i], and the nearest index from [from] on, that hold a number. *)
Fixpoint prevValid (numericData : list (option number)) (i : nat) : option (nat * number) :=
  match i with
  | O => None
  | S j =>
      match nth j numericData None with
      | Some v => Some (j, v)
      | None => prevValid numericData j
      end
  end.

Fixpoint nextValid (rest : list (option number)) (from : nat) : option (nat * number) :=
  match rest with
  | [] => None
  | Some v :: _ => Some (from, v)
  | None :: rest' => nextValid rest' (S from)
  end.

Definition interpolateAt (numericData : list (option number)) (data : list ref)
    (column : string) (h : store) (i : nat) : store :=
  match nth i numericData None, nth_error data i with
  | None, Some row =>
      match prevValid numericData i, nextValid (skipn (S i) numericData) (S i) with
      | Some (prevIndex, prevValue), Some (nextIndex, nextValue) =>
          let steps := of_nat (nextIndex - prevIndex) in
          let stepSize := PrimFloat.div (PrimFloat.sub nextValue prevValue) steps in
          write h row column
            (VNum (PrimFloat.add prevValue
                     (PrimFloat.mul stepSize (of_nat (i - prevIndex)))))
      | _, _ => h
      end
  | _, _ => h
  end.

Definition imputeWithInterpolation (h : store) (data : list ref) (column : string) : store :=
  let numericData :=
    map (fun row =>
           if isNullOrEmpty (read h row column) then None
           else Some (ToNumber (read h row column)))
        data in
  fold_left (interpolateAt numericData data column) (seq 0 (List.length numericData)) h.

Definition imputeWithCustomValue (h : store) (data : list ref) (column : string)
    (customValue : value) : store :=
  fillEach h data column customValue.

(** The [switch] on [strategy.method]. *)
Definition applyStrategy (h : store) (imputedData : list ref) (strategy : ImputationStrategy)
  : completion store :=
  match method strategy with
  | mean => Return (imputeWithMean h imputedData (column strategy))
  | median => Return (imputeWithMedian h imputedData (column strategy))
  | mode => imputeWithMode h imputedData (column strategy)
  | forward_fill => Return (imputeWithForwardFill h imputedData (column strategy))
  | backward_fill => Return (imputeWithBackwardFill h imputedData (column strategy))
  | interpolation => Return (imputeWithInterpolation h imputedData (column strategy))
  | custom =>
      Return (imputeWithCustomValue h imputedData (column strategy) (customValue strategy))
  end.

(** The body of [strategies.forEach], with its [try] and [catch]: a
    strategy that throws has written nothing.  [error] records the error
    caught, whose message the source stores. *)
Definition strategyStep (data imputedData : list ref) (columns : list ETLProcessor.DataColumn)
    (st : store * obj ImputationResult) (strategy : ImputationStrategy)
  : store * obj ImputationResult :=
  let '(h, results) := st in
  match List.find (fun col => String.eqb (ETLProcessor.name col) (column strategy)) columns with
  | None => (h, results)
  | Some _ =>
      let originalNullCount := countNullValues h data (column strategy) in
      match applyStrategy h imputedData strategy with
      | Return h' =>
          let finalNullCount := countNullValues h' imputedData (column strategy) in
          (h', prop_set results (column strategy)
                 {| originalNullCount := originalNullCount;
                    imputedCount := (Z.of_nat originalNullCount - Z.of_nat finalNullCount)%Z;
                    methodUsed := method strategy;
                    success := true;
                    error := None |})
      | Throw e =>
          (h, prop_set results (column strategy)
                {| originalNullCount := originalNullCount;
                   imputedCount := 0%Z;
                   methodUsed := method strategy;
                   success := false;
                   error := Some e |})
      end
  end.

(** [imputeMissingData]: the store after the call, [imputedData] and
    [results]. *)
Definition imputeMissingData (h : store) (data : list ref)
    (columns : list ETLProcessor.DataColumn) (strategies : list ImputationStrategy)
  : store * list ref * obj ImputationResult :=
  let imputedData := data in
  let '(h', results) := fold_left (strategyStep data imputedData columns) strategies (h, []) in
  (h', imputedData, results).




End DataImputation.

(** ** [EnhancedETLProcessor]: correlations and outliers
       (lib/enhanced-etl-processor.ts) *)

Module EnhancedETLProcessor.
Import JS.

(** The optional extended statistics of a column are not read by the
    functions below. *)
Record AdvancedDataColumn : Type := {
  name : string;
  type : ETLProcessor.ColumnType;
  nullable : bool;
  unique : bool;
  stats : option ETLProcessor.ColumnStats
}.

Record Correlation : Type := {
  column1 : string;
  column2 : string;
  correlation : number
}.

Record OutlierReport : Type := {
  column : string;
  method : string;
  count : nat;
  values : list number
}.

Definition is_numeric (col : AdvancedDataColumn) : bool :=
  match type col with
  | ETLProcessor.number_t => true
  | _ => false
  end.

Definition sum (xs : list number) : number := fold_left PrimFloat.add xs PrimFloat.zero.

(** [xs[i]] for a number [i], read as a number: NaN outside the array. *)
Definition at_number (xs : list number) (i : number) : number :=
  match floorZ i with
  | Some z =>
      if PrimFloat.eqb (of_Z z) i && (0 <=? z)%Z then nth (Z.to_nat z) xs PrimFloat.nan
      else PrimFloat.nan
  | None => PrimFloat.nan
  end.

Section Pearson.
Variables x y : list number.

Definition pearson_n : nat := Nat.min (List.length x) (List.length y).

Definition sumX : number := sum (firstn pearson_n x).
Definition sumY : number := sum (firstn pearson_n y).

Definition sumXY : number :=
  fold_left
    (fun acc (xi_i : number * nat) =>
       PrimFloat.add acc (PrimFloat.mul (fst xi_i) (nth (snd xi_i) y PrimFloat.nan)))
    (combine (firstn pearson_n x) (seq 0 pearson_n)) PrimFloat.zero.

Definition sumX2 : number :=
  fold_left (fun acc xi => PrimFloat.add acc (PrimFloat.mul xi xi))
            (firstn pearson_n x) PrimFloat.zero.

Definition sumY2 : number :=
  fold_left (fun acc yi => PrimFloat.add acc (PrimFloat.mul yi yi))
            (firstn pearson_n y) PrimFloat.zero.

Definition numerator : number := (of_nat pearson_n * sumXY - sumX * sumY)%float.

Definition denominator : number :=
  Math_sqrt ((of_nat pearson_n * sumX2 - sumX * sumX)
             * (of_nat pearson_n * sumY2 - sumY * sumY))%float.

Definition calculatePearsonCorrelation : number :=
  if (pearson_n =? 0)%nat then PrimFloat.zero
  else if num_eq denominator PrimFloat.zero then PrimFloat.zero
  else PrimFloat.div numerator denominator.

End Pearson.

(** The rows of [data] in which both columns hold a number. *)
Definition coObserved (data : list Row) (col1 col2 : string) : list (number * number) :=
  List.filter
    (fun p => negb (PrimFloat.is_nan (fst p)) && negb (PrimFloat.is_nan (snd p)))
    (map (fun row => (ToNumber (cell row col1), ToNumber (cell row col2))) data).

(** The body of the inner loop, for the columns at [i] and [j]. *)
Definition correlatePair (data : list Row) (numericColumns : list AdvancedDataColumn)
    (i : nat) (correlations : list Correlation) (j : nat) : list Correlation :=
  match nth_error numericColumns i, nth_error numericColumns j with
  | Some ci, Some cj =>
      let col1 := name ci in
      let col2 := name cj in
      let pairs := coObserved data col1 col2 in
      if (1 <? List.length pairs)%nat then
        correlations ++
          [{| column1 := col1;
              column2 := col2;
              correlation := calculatePearsonCorrelation (map fst pairs) (map snd pairs) |}]
      else correlations
  | _, _ => correlations
  end.

(** [for i in 0 .. n-1, for j in i+1 .. n-1]. *)
Definition calculateAdvancedCorrelations (data : list Row) (columns : list AdvancedDataColumn)
  : list Correlation :=
  let numericColumns := List.filter is_numeric columns in
  let n := List.length numericColumns in
  fold_left
    (fun correlations i =>
       fold_left (correlatePair data numericColumns i) (seq (S i) (n - S i)) correlations)
    (seq 0 n) [].

Definition percentile (values : list number) (p : number) : number :=
  let index := ((p / 100) * (of_nat (List.length values) - 1))%float in
  let lower := Math_floor index in
  let upper := Math_ceil index in
  let weight := rem1 index in
  if PrimFloat.leb (of_nat (List.length values)) upper
  then at_number values (of_nat (List.length values) - 1)%float
  else (at_number values lower * (1 - weight) + at_number values upper * weight)%float.

(** The quantities of the Z-score pass. *)
Definition meanOf (values : list number) : number :=
  (sum values / of_nat (List.length values))%float.

Definition stdDevOf (values : list number) (mean : number) : number :=
  Math_sqrt
    (fold_left (fun acc val => acc + Math_pow2 (val - mean)) values 0
     / of_nat (List.length values))%float.

Definition zScore (val mean stdDev : number) : number :=
  Math_abs ((val - mean) / stdDev)%float.

(** The body of [numericColumns.forEach] in [detectAdvancedOutliers]. *)
Definition outliersOf (data : list Row) (outliers : list OutlierReport)
    (col : AdvancedDataColumn) : list OutlierReport :=
  let values :=
    Array_sort ascending
      (List.filter (fun val => negb (PrimFloat.is_nan val))
                   (map (fun row => ToNumber (cell row (name col))) data)) in
  if (4 <? List.length values)%nat then
    let q1 := percentile values 25%float in
    let q3 := percentile values 75%float in
    let iqr := (q3 - q1)%float in
    let lowerBound := (q1 - 1.5 * iqr)%float in
    let upperBound := (q3 + 1.5 * iqr)%float in
    let iqrOutliers := List.filter (fun val => lt val lowerBound || gt val upperBound) values in
    let outliers :=
      if (0 <? List.length iqrOutliers)%nat then
        outliers ++ [{| column := name col; method := "IQR";
                        count := List.length iqrOutliers;
                        values := firstn 10 iqrOutliers |}]
      else outliers in
    let mean := meanOf values in
    let stdDev := stdDevOf values mean in
    let zScoreOutliers := List.filter (fun val => gt (zScore val mean stdDev) 3%float) values in
    if (0 <? List.length zScoreOutliers)%nat then
      outliers ++ [{| column := name col; method := "Z-Score";
                      count := List.length zScoreOutliers;
                      values := firstn 10 zScoreOutliers |}]
    else outliers
  else outliers.

Definition detectAdvancedOutliers (data : list Row) (columns : list AdvancedDataColumn)
  : list OutlierReport :=
  let numericColumns := List.filter is_numeric columns in
  fold_left (outliersOf data) numericColumns [].

End EnhancedETLProcessor.

(* ================================================================= *)
(** * Part III.  Concrete datasets                                     *)
(* ================================================================= *)

Module Examples.
Import JS.

(** A store holding the given rows at the references [0, 1, 2, ...]. *)
Definition store_of (rows : list Row) : DataImputation.store := fun r => nth r rows [].

Definition column_of (h : DataImputation.store) (data : list DataImputation.ref)
    (c : string) : list value :=
  map (fun r => DataImputation.read h r c) data.

Definition numericColumn (n : string) : ETLProcessor.DataColumn :=
  {| ETLProcessor.name := n; ETLProcessor.type := ETLProcessor.number_t;
     ETLProcessor.nullable := true; ETLProcessor.unique := false;
     ETLProcessor.stats := None |}.

Definition strategy (c : string) (m : DataImputation.Method) : DataImputation.ImputationStrategy :=
  {| DataImputation.column := c; DataImputation.method := m;
     DataImputation.customValue := VUndefined |}.

(** [[{a:"1"},{a:"2"},{a:null},{a:"4"}]] *)
Definition rows_1_2_null_4 : list Row :=
  [ [("a", VStr "1")]; [("a", VStr "2")]; [("a", VNull)]; [("a", VStr "4")] ]%string.

(** Cleaned rows [[{a:10},{a:null},{a:20}]]. *)
Definition rows_10_null_20 : list Row :=
  [ [("a", VNum 10%float)]; [("a", VNull)]; [("a", VNum 20%float)] ]%string.

(** [[{a:"2"},{a:"1"},{a:null}]]: the values "2" and "1" tie. *)
Definition rows_2_1_null : list Row :=
  [ [("a", VStr "2")]; [("a", VStr "1")]; [("a", VNull)] ]%string.

(** A column [v] holding 1, 2, 3, 4, 100. *)
Definition rows_1_2_3_4_100 : list Row :=
  map (fun x => [("v"%string, VNum x)]) [1; 2; 3; 4; 100]%float.

Definition advancedNumeric (n : string) : EnhancedETLProcessor.AdvancedDataColumn :=
  {| EnhancedETLProcessor.name := n;
     EnhancedETLProcessor.type := ETLProcessor.number_t;
     EnhancedETLProcessor.nullable := false;
     EnhancedETLProcessor.unique := false;
     EnhancedETLProcessor.stats := None |}.

(** A constant column [x] (0.1 in each of six rows) next to [y] = 1, 2, 3, 4, 5, 7. *)
Definition rows_constant_x : list Row :=
  map (fun y => [("x"%string, VNum 0.1%float); ("y"%string, VNum y)]) [1; 2; 3; 4; 5; 7]%float.

(** Raw rows [[{a:" false"},{a:"0"}]]. *)
Definition rows_false_0 : list Row :=
  [ [("a", VStr " false")]; [("a", VStr "0")] ]%string.


(** A constant column [x] (1.3 in each of three rows) next to [y] = 1, 2, 3. *)
Definition rows_constant_1_3 : list Row :=
  map (fun y => [("x"%string, VNum 1.3%float); ("y"%string, VNum y)]) [1; 2; 3]%float.

(** The column after a call that returned; nothing after one that threw. *)
Definition column_after (result : completion DataImputation.store)
    (data : list DataImputation.ref) (c : string) : option (list value) :=
  match result with
  | Return h => Some (column_of h data c)
  | Throw _ => None
  end.

(** One row [{a:null, b:"x"}]: column [a] has no value. *)
Definition rows_null_x : list Row := [ [("a", VNull); ("b", VStr "x")] ]%string.

End Examples.

(** ** Notions used to state the properties *)

Module Notions.
Import JS.

(** How often [k] occurs in [keys]. *)
Definition occurrences (k : string) (keys : list string) : nat := count_occ string_dec keys k.

(** The position at which [k] is first encountered in [keys] (the length
    of [keys] when it never is). *)
Fixpoint first_index (k : string) (keys : list string) : nat :=
  match keys with
  | [] => O
  | k' :: rest => if String.eqb k' k then O else S (first_index k rest)
  end.

(** The enumeration order of the own keys of an object whose keys were
    created in the order of [keys]: array indices ascending, then the
    other keys by first encounter. *)
Definition enumerated_before (keys : list string) (a b : string) : Prop :=
  match array_index a, array_index b with
  | Some i, Some j => (i < j)%Z
  | Some _, None => True
  | None, Some _ => False
  | None, None => (first_index a keys < first_index b keys)%nat
  end.

(** The mode as the specification words it: the most frequent key, the
    first encountered among the most frequent ones. *)
Definition first_most_frequent (keys : list string) : option string :=
  fold_left
    (fun best k =>
       match best with
       | None => Some k
       | Some b => if (occurrences b keys <? occurrences k keys)%nat then Some k else Some b
       end)
    keys None.

(** A cell that holds a value, and a carried value that is [null] or was
    read from such a cell. *)
Definition filled (column : string) (h : DataImputation.store) (row : DataImputation.ref) : Prop :=
  DataImputation.isNullOrEmpty (DataImputation.read h row column) = false.

Definition carried (last : value) : Prop :=
  last = VNull \/ DataImputation.isNullOrEmpty last = false.

(** Every cell that held a value in [h0] holds the same value in [h]. *)
Definition kept (h0 h : DataImputation.store) : Prop :=
  forall row column,
    DataImputation.isNullOrEmpty (DataImputation.read h0 row column) = false ->
    DataImputation.read h row column = DataImputation.read h0 row column.

(** The counting step of [tally] on the key alone, for a key that names
    no member of [Object.prototype]. *)
Definition tallyKey (frequencies : obj nat) (key : string) : obj nat :=
  prop_set frequencies key
    (match prop_get frequencies key with Some n => n | None => O end + 1)%nat.

(** A table of counts as the frequency table holds it when none of its
    keys names a member of [Object.prototype]. *)
Definition counted (frequencies : obj nat) : obj DataImputation.Frequency :=
  map (fun entry => (fst entry, DataImputation.Count (snd entry))) frequencies.

(** What the frequency table is once the keys [seen] have been counted:
    each key carries its number of occurrences, no key is listed twice,
    and the keys are listed in enumeration order. *)
Record tallied (seen : list string) (frequencies : obj nat) : Prop := {
  tallied_counts :
    forall k, prop_get frequencies k
              = if (occurrences k seen =? 0)%nat then None else Some (occurrences k seen);
  tallied_nodup : List.NoDup (map fst frequencies);
  tallied_sorted : StronglySorted (enumerated_before seen) (map fst frequencies)
}.

(** What [cleanData] leaves in a cell of a column of type [t]: [null], or
    a value of that type. *)
Definition coerced (t : ETLProcessor.ColumnType) (v : value) : Prop :=
  v = VNull \/
  match t with
  | ETLProcessor.number_t => exists x, v = VNum x /\ PrimFloat.is_nan x = false
  | ETLProcessor.boolean_t => exists b, v = VBool b
  | ETLProcessor.date_t => exists s, v = VStr s
  | ETLProcessor.string_t => exists s, v = VStr s /\ trim s = s
  end.

(** The strategies [imputeMissingData] acts on: those that name a column
    of the schema. *)
Definition names_column (columns : list ETLProcessor.DataColumn)
    (strategy : DataImputation.ImputationStrategy) : bool :=
  existsb (fun col => String.eqb (ETLProcessor.name col) (DataImputation.column strategy))
          columns.

End Notions.

(* ================================================================= *)
(** * Part IV.  Properties                                             *)
(* ================================================================= *)

(** ** Floating-point facts *)

Module FloatFacts.

Lemma nan_sub (x : float) : PrimFloat.sub PrimFloat.nan x = PrimFloat.nan.
Proof.
  apply Prim2SF_inj. rewrite sub_spec.
  change (Prim2SF PrimFloat.nan) with S754_nan.
  destruct (Prim2SF x); reflexivity.
Qed.

End FloatFacts.

(** ** The quality score *)

Module QualityScore.
Import JS ETLProcessor.

(** With no original row (and so no duplicate) the first penalty is
    [0 / 0], and NaN survives the subtractions, the clamp and the rounding. *)
Lemma score_without_rows (data : list Row) (columns : list DataColumn) :
  qualityScore (generateQualityReport data columns 0 0) = PrimFloat.nan.
Proof.
  unfold generateQualityReport.
  cbn [Nat.ltb Nat.leb].
  destruct (gt _ _); destruct (fold_left _ _ _) as [issues suggestions]; cbn [qualityScore].
  all: change (100 - of_nat 0 / of_nat 0 * 20)%float with PrimFloat.nan.
  all: rewrite !FloatFacts.nan_sub; reflexivity.
Qed.

(** C1 (code as written): [transformData] on a dataset without rows, for
    any header list, reports a quality score that is NaN, not a number in
    [0, 100]: the division [duplicateCount / originalRowCount] is [0 / 0]
    and nothing guards it. *)
Theorem transformData_no_rows_score_is_NaN `{DateEngine} (headers : list string) :
  qualityScore (qualityReport (transformData [] headers)) = PrimFloat.nan.
Proof.
  unfold transformData. cbn [List.filter cleanData map removeDuplicates fold_left List.length].
  cbn [qualityReport]. apply score_without_rows.
Qed.

(** The second division is unguarded as well: a dataset whose only row is
    empty has one original row and no cleaned row, and [0 / (0 * 1)] is
    NaN. *)
Lemma transformData_only_empty_rows_score_is_NaN :
  qualityScore
    (qualityReport (transformData (H := isoDates) [ [("a"%string, VStr EmptyString)] ] ["a"%string]))
  = PrimFloat.nan.
Proof. vm_compute. reflexivity. Qed.

End QualityScore.

(** ** Worked examples of the imputation and outlier passes *)

Module Worked.
Import JS Examples.

(** C6: on the rows [{a:"1"},{a:"2"},{a:null},{a:"4"}] with numeric column
    [a], median imputation replaces the null with 2 and interpolation
    replaces it with 3; the other cells stay as they were. *)
Theorem median_fills_2_interpolation_fills_3 :
  let h := store_of rows_1_2_null_4 in
  let data := [0; 1; 2; 3]%nat in
  let columns := [numericColumn "a"] in
  column_of (fst (fst (DataImputation.imputeMissingData
                         h data columns [strategy "a" DataImputation.median])))
            data "a"
    = [VStr "1"; VStr "2"; VNum 2%float; VStr "4"]
  /\ column_of (fst (fst (DataImputation.imputeMissingData
                            h data columns [strategy "a" DataImputation.interpolation])))
               data "a"
    = [VStr "1"; VStr "2"; VNum 3%float; VStr "4"].
Proof. split; vm_compute; reflexivity. Qed.

(** C3 (code as written): [imputeMissingData] copies the array, not the
    rows.  On the caller's rows [{a:10},{a:null},{a:20}] with the mean
    strategy, the returned array holds the caller's own row objects and
    the caller's second row now has [a = 15]. *)
Theorem imputeMissingData_writes_into_the_callers_rows :
  let h := store_of rows_10_null_20 in
  let data := [0; 1; 2]%nat in
  let '(h', imputedData, _) :=
    DataImputation.imputeMissingData h data [numericColumn "a"]
                                     [strategy "a" DataImputation.mean] in
  imputedData = data
  /\ column_of h data "a" = [VNum 10%float; VNull; VNum 20%float]
  /\ column_of h' data "a" = [VNum 10%float; VNum 15%float; VNum 20%float].
Proof. vm_compute. repeat split; reflexivity. Qed.

(** C4, as the claim states it: on the values 1, 2, 3, 4, 100 no report of
    the Z-score method is produced. *)
Lemma zscore_does_not_flag_100 :
  List.filter (fun e => String.eqb (EnhancedETLProcessor.method e) "Z-Score")
              (EnhancedETLProcessor.detectAdvancedOutliers rows_1_2_3_4_100 [advancedNumeric "v"])
  = [].
Proof. vm_compute. reflexivity. Qed.

(** C4, amended: on the values 1, 2, 3, 4, 100 the IQR method (Q1 = 2,
    Q3 = 4 by linear-interpolated percentile, fences at 1.5 IQR) flags 100
    and nothing else, and that is the only report: under the Z-score
    method with population standard deviation 100 scores
    |100 - 22| / sqrt 1522 = 1.9993..., which is not above 3. *)
Theorem iqr_flags_100_zscore_does_not :
  let values := [1; 2; 3; 4; 100]%float in
  EnhancedETLProcessor.detectAdvancedOutliers rows_1_2_3_4_100 [advancedNumeric "v"]
    = [ {| EnhancedETLProcessor.column := "v";
           EnhancedETLProcessor.method := "IQR";
           EnhancedETLProcessor.count := 1;
           EnhancedETLProcessor.values := [100%float] |} ]
  /\ EnhancedETLProcessor.percentile values 25%float = 2%float
  /\ EnhancedETLProcessor.percentile values 75%float = 4%float
  /\ EnhancedETLProcessor.meanOf values = 22%float
  /\ EnhancedETLProcessor.zScore 100%float 22%float
       (EnhancedETLProcessor.stdDevOf values 22%float) = 1.9993428618189626%float.
Proof. vm_compute. repeat split; reflexivity. Qed.

End Worked.

(** ** Objects and the store *)

Module ObjectFacts.
Import JS.

Section Props.
Context {A : Type}.
Implicit Types (o : obj A) (k : string) (v : A).

Lemma prop_get_replace_same o k v w :
  prop_get o k = Some w -> prop_get (prop_replace o k v) k = Some v.
Proof.
  induction o as [|[k' v'] o IH]; cbn; [discriminate|].
  destruct (String.eqb k' k) eqn:E; cbn.
  - now rewrite String.eqb_refl.
  - rewrite E. exact IH.
Qed.

Lemma prop_get_replace_other o k k' v :
  k' <> k -> prop_get (prop_replace o k v) k' = prop_get o k'.
Proof.
  intros Hne. induction o as [|[k0 v0] o IH]; cbn; [reflexivity|].
  destruct (String.eqb k0 k) eqn:E; cbn.
  - apply String.eqb_eq in E. subst k0.
    destruct (String.eqb k k') eqn:E'; [apply String.eqb_eq in E'; congruence | reflexivity].
  - now rewrite IH.
Qed.

Lemma prop_get_create_same o k v :
  prop_get o k = None -> prop_get (prop_create o k v) k = Some v.
Proof.
  induction o as [|[k' v'] o IH]; cbn.
  - now rewrite String.eqb_refl.
  - destruct (String.eqb k' k) eqn:E; [discriminate|]. intros Hn.
    destruct (key_before k k'); cbn.
    + now rewrite String.eqb_refl.
    + rewrite E. now apply IH.
Qed.

Lemma prop_get_create_other o k k' v :
  k' <> k -> prop_get (prop_create o k v) k' = prop_get o k'.
Proof.
  intros Hne. induction o as [|[k0 v0] o IH]; cbn.
  - destruct (String.eqb k k') eqn:E; [apply String.eqb_eq in E; congruence | reflexivity].
  - destruct (key_before k k0); cbn.
    + destruct (String.eqb k k') eqn:E; [apply String.eqb_eq in E; congruence | reflexivity].
    + now rewrite IH.
Qed.

(** Reading back what was assigned. *)
Lemma prop_get_set_same o k v : prop_get (prop_set o k v) k = Some v.
Proof.
  unfold prop_set. destruct (prop_get o k) eqn:E.
  - eapply prop_get_replace_same; eauto.
  - now apply prop_get_create_same.
Qed.

(** Assignment leaves the other properties alone. *)
Lemma prop_get_set_other o k k' v : k' <> k -> prop_get (prop_set o k v) k' = prop_get o k'.
Proof.
  intros Hne. unfold prop_set. destruct (prop_get o k).
  - now apply prop_get_replace_other.
  - now apply prop_get_create_other.
Qed.

Lemma prop_get_None o k : prop_get o k = None <-> ~ In k (map fst o).
Proof.
  induction o as [|[k' v'] o IH]; cbn; [tauto|].
  destruct (String.eqb k' k) eqn:E.
  - apply String.eqb_eq in E. split; [discriminate | tauto].
  - apply String.eqb_neq in E. rewrite IH. tauto.
Qed.

Lemma prop_get_In o k v : prop_get o k = Some v -> In (k, v) o.
Proof.
  induction o as [|[k' v'] o IH]; cbn; [discriminate|].
  destruct (String.eqb k' k) eqn:E.
  - apply String.eqb_eq in E. intros [= ->]. left. now subst.
  - intros H. right. now apply IH.
Qed.

Lemma prop_get_NoDup o k v : List.NoDup (map fst o) -> In (k, v) o -> prop_get o k = Some v.
Proof.
  induction o as [|[k' v'] o IH]; cbn; [tauto|].
  intros Hnd [[= -> ->]|Hin].
  - now rewrite String.eqb_refl.
  - apply NoDup_cons_iff in Hnd as [Hk Hnd].
    destruct (String.eqb k' k) eqn:E.
    + apply String.eqb_eq in E. subst k'. exfalso. apply Hk.
      change k with (fst (k, v)). now apply in_map.
    + now apply IH.
Qed.

Lemma prop_replace_keys o k v : map fst (prop_replace o k v) = map fst o.
Proof.
  induction o as [|[k' v'] o IH]; cbn; [reflexivity|].
  destruct (String.eqb k' k) eqn:E; cbn.
  - apply String.eqb_eq in E. now subst.
  - now rewrite IH.
Qed.

(** The keys after an assignment. *)
Lemma prop_set_keys o k v k' :
  In k' (Object_keys (prop_set o k v)) <-> k' = k \/ In k' (Object_keys o).
Proof.
  unfold Object_keys.
  destruct (string_dec k' k) as [->|Hne].
  - split; [tauto|]. intros _.
    destruct (in_dec string_dec k (map fst (prop_set o k v))) as [Hin|Hnin]; [exact Hin|].
    apply prop_get_None in Hnin. now rewrite prop_get_set_same in Hnin.
  - pose proof (prop_get_None (prop_set o k v) k') as H1.
    pose proof (prop_get_None o k') as H2.
    rewrite (prop_get_set_other o k k' v Hne) in H1.
    destruct (in_dec string_dec k' (map fst (prop_set o k v)));
      destruct (in_dec string_dec k' (map fst o)); tauto.
Qed.

End Props.
End ObjectFacts.

Module StoreFacts.
Import JS DataImputation.

Lemma read_write_same h row column v : read (write h row column v) row column = v.
Proof.
  unfold read, write, cell. rewrite Nat.eqb_refl.
  now rewrite ObjectFacts.prop_get_set_same.
Qed.

Lemma read_write_other_row h row row' column column' v :
  row' <> row -> read (write h row column v) row' column' = read h row' column'.
Proof.
  intros Hne. unfold read, write.
  destruct (Nat.eqb row' row) eqn:E; [apply Nat.eqb_eq in E; congruence | reflexivity].
Qed.

Lemma read_write_other_column h row row' column column' v :
  column' <> column -> read (write h row column v) row' column' = read h row' column'.
Proof.
  intros Hne. unfold read, write, cell.
  destruct (Nat.eqb row' row) eqn:E; [|reflexivity].
  apply Nat.eqb_eq in E. subst row'.
  now rewrite ObjectFacts.prop_get_set_other.
Qed.

(** [countNullValues] counts the cells [isNullOrEmpty] accepts. *)
Lemma countNullValues_spec h data column :
  countNullValues h data column
  = List.length (List.filter (fun row => isNullOrEmpty (read h row column)) data).
Proof. reflexivity. Qed.

Lemma countNullValues_zero h data column :
  countNullValues h data column = 0%nat
  <-> forall row, In row data -> isNullOrEmpty (read h row column) = false.
Proof.
  rewrite countNullValues_spec. induction data as [|a data IH]; cbn.
  - split; [intros _ ? [] | reflexivity].
  - destruct (isNullOrEmpty (read h a column)) eqn:E; cbn.
    + split; [discriminate|]. intros H. specialize (H a (or_introl eq_refl)). congruence.
    + rewrite IH. split.
      * intros H row [<-|Hin]; auto.
      * intros H row Hin. apply H. now right.
Qed.

End StoreFacts.

(** ** Forward fill and backward fill *)

Module CarryFill.
Import JS DataImputation.

Section Pass.
Variable column : string.

Local Abbreviation filled := (Notions.filled column).
Local Abbreviation carried := Notions.carried.

Lemma filled_not_null v : isNullOrEmpty v = false -> strict_eq v VNull = false.
Proof. destruct v; cbn; congruence. Qed.

Lemma carryStep_carried st row : carried (snd st) -> carried (snd (carryStep column st row)).
Proof.
  destruct st as [h last]. unfold carryStep. cbn [snd].
  destruct (isNullOrEmpty (read h row column)) eqn:E; cbn [negb].
  - destruct (strict_eq last VNull); auto.
  - intros _. right. exact E.
Qed.

(** A step never empties a cell. *)
Lemma carryStep_keeps st row r :
  carried (snd st) -> filled (fst st) r -> filled (fst (carryStep column st row)) r.
Proof.
  destruct st as [h last]. unfold carryStep, Notions.filled. cbn [fst snd]. intros Hc Hr.
  destruct (isNullOrEmpty (read h row column)) eqn:E; cbn [negb fst]; [|exact Hr].
  destruct (strict_eq last VNull) eqn:En; cbn [negb fst]; [exact Hr|].
  destruct (Nat.eq_dec r row) as [->|Hne]; [congruence|].
  now rewrite StoreFacts.read_write_other_row.
Qed.

(** After a step the row it visited is filled, once a value is carried. *)
Lemma carryStep_fills st row :
  isNullOrEmpty (snd st) = false ->
  filled (fst (carryStep column st row)) row
  /\ isNullOrEmpty (snd (carryStep column st row)) = false.
Proof.
  destruct st as [h last]. unfold carryStep, Notions.filled. cbn [fst snd]. intros Hl.
  destruct (isNullOrEmpty (read h row column)) eqn:E; cbn [negb fst snd]; [|auto].
  rewrite (filled_not_null _ Hl). cbn [negb fst snd].
  now rewrite StoreFacts.read_write_same.
Qed.

Lemma pass_carried rows st :
  carried (snd st) -> carried (snd (fold_left (carryStep column) rows st)).
Proof.
  revert st. induction rows as [|a rows IH]; intros st Hc; cbn; [exact Hc|].
  apply IH. now apply carryStep_carried.
Qed.

Lemma pass_keeps rows st r :
  carried (snd st) -> filled (fst st) r -> filled (fst (fold_left (carryStep column) rows st)) r.
Proof.
  revert st. induction rows as [|a rows IH]; intros st Hc Hr; cbn; [exact Hr|].
  apply IH; [now apply carryStep_carried | now apply carryStep_keeps].
Qed.

(** Once a value is carried, every row the pass visits ends filled. *)
Lemma pass_fills_all rows st r :
  isNullOrEmpty (snd st) = false -> In r rows ->
  filled (fst (fold_left (carryStep column) rows st)) r.
Proof.
  revert st. induction rows as [|a rows IH]; intros st Hl Hin; [destruct Hin|].
  cbn [fold_left]. destruct (carryStep_fills st a Hl) as [Ha Hl'].
  destruct Hin as [->|Hin].
  - apply pass_keeps; [right; exact Hl' | exact Ha].
  - now apply IH.
Qed.

(** From the first filled row on, every row the pass visits ends filled. *)
Lemma pass_fills_from before r0 after st r :
  carried (snd st) -> filled (fst st) r0 -> In r (r0 :: after) ->
  filled (fst (fold_left (carryStep column) (before ++ r0 :: after) st)) r.
Proof.
  intros Hc H0 Hin. rewrite fold_left_app. cbn [fold_left].
  set (st1 := fold_left (carryStep column) before st).
  assert (Hc1 : carried (snd st1)) by now apply pass_carried.
  assert (H1 : filled (fst st1) r0) by now apply pass_keeps.
  assert (Hl2 : isNullOrEmpty (snd (carryStep column st1 r0)) = false).
  { destruct st1 as [h1 last1]. unfold carryStep, Notions.filled in *. cbn [fst snd] in *.
    rewrite H1. cbn. exact H1. }
  destruct Hin as [<-|Hin].
  - apply pass_keeps; [right; exact Hl2 | now apply carryStep_keeps].
  - now apply pass_fills_all.
Qed.

(** C8: forward fill followed by backward fill on one column leaves no
    null or empty cell in it, unless every cell of the column was null or
    empty before the two passes. *)
Theorem forward_then_backward_fill_leaves_no_null (h : store) (data : list ref) :
  (exists row, In row data /\ isNullOrEmpty (read h row column) = false) ->
  let h' := imputeWithBackwardFill (imputeWithForwardFill h data column) data column in
  (forall row, In row data -> isNullOrEmpty (read h' row column) = false)
  /\ countNullValues h' data column = 0%nat.
Proof.
  intros (r0 & Hin & H0) h'.
  assert (Hall : forall row, In row data -> isNullOrEmpty (read h' row column) = false).
  { destruct (in_split _ _ Hin) as (before & after & ->).
    set (h1 := imputeWithForwardFill h (before ++ r0 :: after) column).
    assert (Hfwd : forall r, In r (r0 :: after) -> filled h1 r).
    { intros r Hr. unfold h1, imputeWithForwardFill.
      apply pass_fills_from; [now left | exact H0 | exact Hr]. }
    intros row Hrow. subst h'. fold h1. unfold imputeWithBackwardFill.
    rewrite rev_app_distr. cbn [rev]. rewrite <- app_assoc. cbn [app].
    apply in_app_or in Hrow as [Hb | Ha].
    - apply (pass_fills_from (rev after) r0 (rev before) (h1, VNull));
        [now left | apply Hfwd; now left | right; now apply in_rev in Hb].
    - apply pass_keeps; [now left | now apply Hfwd]. }
  split; [exact Hall | now apply StoreFacts.countNullValues_zero].
Qed.

End Pass.

(** The statement above at the rows [{a:null},{a:"2"},{a:null}]. *)
Lemma forward_then_backward_fill_example :
  (exists row, In row [0; 1; 2]%nat
     /\ isNullOrEmpty (read (Examples.store_of [[("a", VNull)]; [("a", VStr "2")]; [("a", VNull)]])
                            row "a") = false)
  /\ countNullValues
       (imputeWithBackwardFill
          (imputeWithForwardFill
             (Examples.store_of [[("a", VNull)]; [("a", VStr "2")]; [("a", VNull)]])
             [0; 1; 2]%nat "a")
          [0; 1; 2]%nat "a")
       [0; 1; 2]%nat "a" = 0%nat.
Proof.
  assert (H : exists row, In row [0; 1; 2]%nat
     /\ isNullOrEmpty (read (Examples.store_of [[("a", VNull)]; [("a", VStr "2")]; [("a", VNull)]])
                            row "a") = false).
  { exists 1%nat. split; [cbn; auto | reflexivity]. }
  split; [exact H|].
  exact (proj2 (forward_then_backward_fill_leaves_no_null "a" _ _ H)).
Defined.

End CarryFill.

(** ** Filling every empty cell with one value *)

Module FillEach.
Import JS DataImputation.

Section Fill.
Variables (column : string) (v : value).

(** A cell that already holds [v] keeps it. *)
Lemma fillEach_stable data h row :
  read h row column = v -> read (fillEach h data column v) row column = v.
Proof.
  revert h. induction data as [|a data IH]; intros h Hv; [exact Hv|].
  cbn [fillEach fold_left]. apply IH. unfold fillStep.
  destruct (isNullOrEmpty (read h a column)); [|exact Hv].
  destruct (Nat.eq_dec row a) as [->|Hne].
  - apply StoreFacts.read_write_same.
  - now rewrite StoreFacts.read_write_other_row.
Qed.

(** Every empty cell of a row of [data] receives [v]. *)
Lemma fillEach_filled data h row :
  In row data -> isNullOrEmpty (read h row column) = true ->
  read (fillEach h data column v) row column = v.
Proof.
  revert h. induction data as [|a data IH]; intros h Hin He; [destruct Hin|].
  cbn [fillEach fold_left]. destruct (Nat.eq_dec a row) as [->|Hne].
  - apply fillEach_stable. unfold fillStep. rewrite He. apply StoreFacts.read_write_same.
  - destruct Hin as [->|Hin]; [congruence|].
    apply IH; [exact Hin|]. unfold fillStep.
    destruct (isNullOrEmpty (read h a column)); [|exact He].
    rewrite StoreFacts.read_write_other_row; [exact He | congruence].
Qed.

(** A cell that holds a value keeps it. *)
Lemma fillEach_kept data h row :
  isNullOrEmpty (read h row column) = false ->
  read (fillEach h data column v) row column = read h row column.
Proof.
  unfold fillEach. revert h. induction data as [|a data IH]; intros h He; [reflexivity|].
  cbn [fold_left]. unfold fillStep at 2.
  destruct (isNullOrEmpty (read h a column)) eqn:Ea.
  - destruct (Nat.eq_dec row a) as [->|Hne]; [congruence|].
    rewrite IH; rewrite StoreFacts.read_write_other_row; auto.
  - now apply IH.
Qed.

End Fill.
End FillEach.

(** ** The frequency table of the mode *)

Module Tally.
Import JS DataImputation Notions.

(** *** Keys and their enumeration order *)

Lemma array_index_canonical k i : array_index k = Some i -> string_of_Z i = k.
Proof.
  unfold array_index.
  destruct (take_digits 10 (list_ascii_of_string k)) as [ds rest].
  destruct ds as [|d ds]; [discriminate|]. destruct rest; [|discriminate].
  destruct (String.eqb _ k) eqn:E; cbn [andb]; [|discriminate].
  destruct (_ <? _)%Z; [|discriminate]. intros [= <-]. now apply String.eqb_eq.
Qed.

Lemma array_index_inj a b i : array_index a = Some i -> array_index b = Some i -> a = b.
Proof.
  intros Ha Hb. apply array_index_canonical in Ha, Hb. congruence.
Qed.

Lemma first_index_app_in k p q : In k p -> first_index k (p ++ q) = first_index k p.
Proof.
  induction p as [|a p IH]; cbn; [tauto|].
  intros [->|Hin]; [now rewrite String.eqb_refl|].
  destruct (String.eqb a k); [reflexivity | now rewrite IH].
Qed.

Lemma first_index_app_fresh k p q :
  ~ In k p -> first_index k (p ++ q) = (List.length p + first_index k q)%nat.
Proof.
  induction p as [|a p IH]; cbn; [reflexivity|]. intros Hn.
  destruct (String.eqb a k) eqn:E; [apply String.eqb_eq in E; tauto|].
  rewrite IH; tauto.
Qed.

Lemma first_index_in k p : In k p -> (first_index k p < List.length p)%nat.
Proof.
  induction p as [|a p IH]; cbn; [tauto|].
  intros [->|Hin]; [rewrite String.eqb_refl; lia|].
  destruct (String.eqb a k); [lia | specialize (IH Hin); lia].
Qed.

Lemma enumerated_before_trans p a b c :
  enumerated_before p a b -> enumerated_before p b c -> enumerated_before p a c.
Proof.
  unfold enumerated_before.
  destruct (array_index a), (array_index b), (array_index c); try tauto; lia.
Qed.

Lemma enumerated_before_app p q a b :
  In a p -> In b p -> enumerated_before p a b -> enumerated_before (p ++ q) a b.
Proof.
  unfold enumerated_before. intros Ha Hb.
  destruct (array_index a), (array_index b); try tauto.
  now rewrite !first_index_app_in.
Qed.

Lemma enumerated_before_of_key_before p k x :
  key_before k x = true -> enumerated_before p k x.
Proof.
  unfold key_before, enumerated_before.
  destruct (array_index k), (array_index x); try discriminate; [lia | tauto].
Qed.

(** A key that is not created before [x] comes after it. *)
Lemma enumerated_before_fresh p k x :
  key_before k x = false -> x <> k -> In x p -> ~ In k p ->
  enumerated_before (p ++ [k]) x k.
Proof.
  unfold key_before, enumerated_before. intros Hk Hne Hx Hn.
  destruct (array_index k) as [i|] eqn:Ei, (array_index x) as [j|] eqn:Ej;
    try discriminate; try tauto.
  - assert (i <> j) by (intros ->; eauto using array_index_inj). lia.
  - rewrite first_index_app_in by exact Hx.
    rewrite first_index_app_fresh by exact Hn.
    pose proof (first_index_in _ _ Hx). lia.
Qed.

(** *** Lists kept in order *)

Lemma StronglySorted_weaken {A} (R R' : A -> A -> Prop) (l : list A) :
  (forall a b, In a l -> In b l -> R a b -> R' a b) ->
  StronglySorted R l -> StronglySorted R' l.
Proof.
  induction l as [|x l IH]; intros HR Hs; [constructor|].
  apply StronglySorted_inv in Hs as [Hs Hx]. constructor.
  - apply IH; [|exact Hs]. intros a b Ha Hb. apply HR; now right.
  - rewrite List.Forall_forall in *. intros y Hy. apply HR; [now left | now right | now apply Hx].
Qed.

Lemma StronglySorted_insert {A} (R : A -> A -> Prop) (k : A) (l1 l2 : list A) :
  StronglySorted R (l1 ++ l2) ->
  (forall x, In x l1 -> R x k) -> (forall y, In y l2 -> R k y) ->
  StronglySorted R (l1 ++ k :: l2).
Proof.
  induction l1 as [|x l1 IH]; cbn; intros Hs H1 H2.
  - constructor; [exact Hs | apply List.Forall_forall; exact H2].
  - apply StronglySorted_inv in Hs as [Hs Hx]. constructor.
    + apply IH; auto.
    + rewrite List.Forall_forall in *. intros y Hy. apply in_app_or in Hy as [Hy|[<-|Hy]].
      * apply Hx. apply in_or_app. now left.
      * apply H1. now left.
      * apply Hx. apply in_or_app. now right.
Qed.

Lemma StronglySorted_app_inv {A} (R : A -> A -> Prop) (l1 l2 : list A) x y :
  StronglySorted R (l1 ++ x :: l2) -> In y l2 -> R x y.
Proof.
  induction l1 as [|a l1 IH]; cbn; intros Hs Hy.
  - apply StronglySorted_inv in Hs as [_ Hx]. rewrite List.Forall_forall in Hx. now apply Hx.
  - apply StronglySorted_inv in Hs as [Hs _]. now apply IH.
Qed.

(** *** Creating a property *)

(** Where [prop_create] puts the new key. *)
Lemma prop_create_keys {A} (o : obj A) k v :
  exists l1 l2,
    map fst o = l1 ++ l2
    /\ map fst (prop_create o k v) = l1 ++ k :: l2
    /\ (forall x, In x l1 -> key_before k x = false)
    /\ match l2 with [] => True | y :: _ => key_before k y = true end.
Proof.
  induction o as [|[k' v'] o (l1 & l2 & E1 & E2 & H1 & H2)]; cbn.
  - exists [], []. cbn. tauto.
  - destruct (key_before k k') eqn:E.
    + exists [], (k' :: map fst o). cbn. repeat split; [tauto | exact E].
    + exists (k' :: l1), l2. cbn. rewrite E1, E2. repeat split; [|exact H2].
      intros x [<-|Hx]; auto.
Qed.

(** *** Counting *)

Lemma occurrences_snoc k k' p :
  occurrences k' (p ++ [k]) = (occurrences k' p + if string_dec k k' then 1 else 0)%nat.
Proof.
  unfold occurrences. rewrite count_occ_app. cbn. now destruct (string_dec k k').
Qed.

Lemma occurrences_in k p : In k p <-> occurrences k p <> 0%nat.
Proof.
  unfold occurrences. rewrite (count_occ_In string_dec). lia.
Qed.

Lemma tallied_keys_seen p F k : tallied p F -> In k (map fst F) -> In k p.
Proof.
  intros [Hc _ _] Hin. apply occurrences_in. intros Hz.
  specialize (Hc k). rewrite Hz in Hc. cbn in Hc.
  now apply ObjectFacts.prop_get_None in Hc.
Qed.

Lemma tallied_nil : tallied [] [].
Proof. split; cbn; [reflexivity | constructor | constructor]. Qed.

(** Counting one more key keeps the table in shape. *)
Lemma tallied_step p F k : tallied p F -> tallied (p ++ [k]) (tallyKey F k).
Proof.
  intros HT. pose proof HT as [Hc Hnd Hs].
  assert (Hseen : forall x, In x (map fst F) -> In x p) by (intros x; now apply tallied_keys_seen).
  assert (Hs' : StronglySorted (enumerated_before (p ++ [k])) (map fst F)).
  { eapply StronglySorted_weaken; [|exact Hs].
    intros a b Ha Hb. apply enumerated_before_app; auto. }
  assert (Hn : match prop_get F k with Some n => n | None => 0%nat end = occurrences k p).
  { rewrite (Hc k). destruct (occurrences k p =? 0)%nat eqn:E; [|reflexivity].
    now apply Nat.eqb_eq in E. }
  split.
  - intros k'. rewrite occurrences_snoc. unfold tallyKey. rewrite Hn.
    destruct (string_dec k k') as [<-|Hne].
    + rewrite ObjectFacts.prop_get_set_same.
      destruct (occurrences k p + 1 =? 0)%nat eqn:E; [apply Nat.eqb_eq in E; lia | reflexivity].
    + rewrite ObjectFacts.prop_get_set_other by congruence.
      rewrite Nat.add_0_r. apply Hc.
  - unfold tallyKey, prop_set. destruct (prop_get F k) eqn:E.
    + now rewrite ObjectFacts.prop_replace_keys.
    + apply ObjectFacts.prop_get_None in E.
      destruct (prop_create_keys F k (0 + 1)%nat) as (l1 & l2 & E1 & E2 & _ & _).
      rewrite E2. rewrite E1 in Hnd, E.
      apply (NoDup_Add (Add_app k l1 l2)). tauto.
  - unfold tallyKey, prop_set. destruct (prop_get F k) eqn:E.
    + now rewrite ObjectFacts.prop_replace_keys.
    + apply ObjectFacts.prop_get_None in E.
      assert (Hfresh : ~ In k p).
      { intros Hin. apply occurrences_in in Hin. specialize (Hc k).
        destruct (occurrences k p =? 0)%nat eqn:E0; [apply Nat.eqb_eq in E0; lia|].
        apply E. apply ObjectFacts.prop_get_In in Hc.
        change k with (fst (k, occurrences k p)). now apply in_map. }
      destruct (prop_create_keys F k (0 + 1)%nat) as (l1 & l2 & E1 & E2 & H1 & H2).
      rewrite E2. rewrite E1 in Hs', Hseen, E.
      apply StronglySorted_insert; [exact Hs'| |].
      * intros x Hx. apply enumerated_before_fresh; auto.
        -- intros ->. apply E. apply in_or_app. now left.
        -- apply Hseen. apply in_or_app. now left.
      * destruct l2 as [|y0 l2]; [intros ? []|].
        intros y [<-|Hy]; [now apply enumerated_before_of_key_before|].
        apply (enumerated_before_trans _ _ y0); [now apply enumerated_before_of_key_before|].
        eapply StronglySorted_app_inv; eauto.
Qed.

Lemma tallied_fold rest p F :
  tallied p F -> tallied (p ++ rest) (fold_left tallyKey rest F).
Proof.
  revert p F. induction rest as [|k rest IH]; intros p F HT; cbn.
  - now rewrite app_nil_r.
  - replace (p ++ k :: rest) with ((p ++ [k]) ++ rest) by now rewrite <- app_assoc.
    apply IH. now apply tallied_step.
Qed.

(** *** The table read through the prototype *)

Lemma counted_get (F : obj nat) k : prop_get (counted F) k = option_map Count (prop_get F k).
Proof.
  unfold counted. induction F as [|[k' n] F IH]; cbn; [reflexivity|].
  destruct (String.eqb k' k); [reflexivity | exact IH].
Qed.

Lemma counted_replace (F : obj nat) k n :
  prop_replace (counted F) k (Count n) = counted (prop_replace F k n).
Proof.
  unfold counted. induction F as [|[k' n'] F IH]; cbn; [reflexivity|].
  destruct (String.eqb k' k); cbn; [reflexivity | now rewrite IH].
Qed.

Lemma counted_create (F : obj nat) k n :
  prop_create (counted F) k (Count n) = counted (prop_create F k n).
Proof.
  unfold counted. induction F as [|[k' n'] F IH]; cbn; [reflexivity|].
  destruct (key_before k k'); cbn; [reflexivity | now rewrite IH].
Qed.

Lemma counted_set (F : obj nat) k n :
  prop_set (counted F) k (Count n) = counted (prop_set F k n).
Proof.
  unfold prop_set. rewrite counted_get.
  destruct (prop_get F k); cbn; [apply counted_replace | apply counted_create].
Qed.

(** Away from the names of the members of [Object.prototype], the table
    is the table of counts. *)
Lemma tally_counted vals (F : obj nat) :
  (forall v, In v vals -> inherited (ToString v) = false) ->
  fold_left tally vals (counted F) = counted (fold_left tallyKey (map ToString vals) F).
Proof.
  revert F. induction vals as [|v vals IH]; intros F Hv; [reflexivity|].
  cbn [fold_left map]. rewrite <- IH by (intros w Hw; apply Hv; now right).
  f_equal. unfold tally, tallyKey. rewrite counted_get.
  destruct (prop_get F (ToString v)) as [n|]; cbn [option_map]; [now rewrite counted_set|].
  specialize (Hv v (or_introl eq_refl)).
  destruct (String.eqb (ToString v) "__proto__") eqn:E.
  - apply String.eqb_eq in E. rewrite E in Hv. discriminate.
  - now rewrite Hv, counted_set.
Qed.

(** The table [imputeWithMode] builds from such values of a column. *)
Lemma tallied_values vals :
  (forall v, In v vals -> inherited (ToString v) = false) ->
  exists F, fold_left tally vals [] = counted F /\ tallied (map ToString vals) F.
Proof.
  intros Hv. exists (fold_left tallyKey (map ToString vals) []). split.
  - apply (tally_counted vals [] Hv).
  - apply (tallied_fold _ [] []), tallied_nil.
Qed.







(** *** The first entry after sorting by count, descending *)



Local Abbreviation byCount := (fun x y : string * nat => (snd x <? snd y)%nat).

Lemma sort_insert_counted (x : string * nat) (sorted : list (string * nat)) :
  sort_insert byCountDescending (fst x, Count (snd x)) (counted sorted)
  = counted (sort_insert byCount x sorted).
Proof.
  unfold counted. induction sorted as [|y sorted IH]; [reflexivity|].
  cbn [map sort_insert]. unfold byCountDescending at 1. cbn [snd].
  destruct (snd x <? snd y)%nat; cbn [map]; [now rewrite IH | reflexivity].
Qed.

Lemma sort_counted (l : list (string * nat)) :
  Array_sort byCountDescending (counted l) = counted (Array_sort byCount l).
Proof.
  unfold Array_sort. induction l as [|x l IH]; [reflexivity|].
  cbn [fold_right]. rewrite <- sort_insert_counted, <- IH. reflexivity.
Qed.

Lemma sort_head (l : list (string * nat)) :
  l <> [] ->
  exists m rest l1 l2,
    Array_sort byCount l = m :: rest
    /\ l = l1 ++ m :: l2
    /\ (forall x, In x l1 -> (snd x < snd m)%nat)
    /\ (forall x, In x l2 -> (snd x <= snd m)%nat).
Proof.
  induction l as [|a l IH]; [congruence|]. intros _.
  destruct l as [|b l].
  - exists a, [], [], []. cbn. tauto.
  - destruct IH as (m & rest & l1 & l2 & Es & El & H1 & H2); [congruence|].
    cbn [Array_sort fold_right] in *. rewrite Es. cbn [sort_insert].
    destruct (snd a <? snd m)%nat eqn:E.
    + apply Nat.ltb_lt in E.
      exists m, (sort_insert byCount a rest), (a :: l1), l2.
      rewrite El. repeat split; [|exact H2].
      intros x [<-|Hx]; auto.
    + apply Nat.ltb_ge in E.
      exists a, (m :: rest), [], (b :: l). repeat split; [intros ? []|].
      intros x Hx. rewrite El in Hx. apply in_app_or in Hx as [Hx|[<-|Hx]].
      * specialize (H1 x Hx). lia.
      * exact E.
      * specialize (H2 x Hx). lia.
Qed.

End Tally.

(** ** Mode imputation *)

Module Mode.
Import JS DataImputation Notions.

(** What [imputeWithMode] does when the column holds at least one value
    and no value's string form names a member of [Object.prototype]: it
    fills with the key [mode] heading the table sorted by count. *)
Lemma imputeWithMode_mode h data column :
  let keys := map ToString (List.filter present (map (fun row => read h row column) data)) in
  keys <> [] ->
  (forall k, In k keys -> inherited k = false) ->
  exists mode,
    In mode keys
    /\ (forall k, In k keys -> (occurrences k keys <= occurrences mode keys)%nat)
    /\ (forall k, In k keys -> occurrences k keys = occurrences mode keys -> k <> mode ->
                  enumerated_before keys mode k)
    /\ imputeWithMode h data column = Return (fillEach h data column (VStr mode)).
Proof.
  intros keys Hne Hown. unfold imputeWithMode.
  set (vals := List.filter present (map (fun row => read h row column) data)) in *.
  destruct (Tally.tallied_values vals) as (F & EF0 & HT).
  { intros v Hv. apply Hown. now apply in_map. }
  fold keys in HT. rewrite EF0.
  pose proof HT as [Hc Hnd Hs].
  assert (Hget : forall k, In k keys -> In (k, occurrences k keys) F).
  { intros k Hk. apply ObjectFacts.prop_get_In. rewrite Hc.
    apply Tally.occurrences_in in Hk.
    destruct (occurrences k keys =? 0)%nat eqn:E; [apply Nat.eqb_eq in E; lia | reflexivity]. }
  assert (Hcount : forall k c, In (k, c) F -> c = occurrences k keys).
  { intros k c Hin. apply ObjectFacts.prop_get_NoDup in Hin; [|exact Hnd].
    rewrite Hc in Hin. destruct (occurrences k keys =? 0)%nat; congruence. }
  destruct (List.length vals =? 0)%nat eqn:El.
  { apply Nat.eqb_eq in El. destruct vals; [now destruct Hne | discriminate]. }
  assert (HF : F <> []).
  { destruct keys as [|k0 ?] eqn:Ek; [congruence|].
    intros HF. specialize (Hget k0 (or_introl eq_refl)). rewrite HF in Hget. destruct Hget. }
  destruct (Tally.sort_head F HF) as ([mode c] & rest & l1 & l2 & Es & EF & H1 & H2).
  unfold Object_entries. rewrite Tally.sort_counted, Es. unfold counted. cbn [map fst].
  assert (Hm : In (mode, c) F) by (rewrite EF; apply in_or_app; right; now left).
  assert (Ec : c = occurrences mode keys) by now apply Hcount.
  exists mode. repeat split.
  - apply (Tally.tallied_keys_seen _ F); [exact HT|].
    change mode with (fst (mode, c)). now apply in_map.
  - intros k Hk. specialize (Hget k Hk). rewrite EF in Hget.
    apply in_app_or in Hget as [Hin|[Heq|Hin]].
    + specialize (H1 _ Hin). cbn in H1. lia.
    + injection Heq as _ ->. lia.
    + specialize (H2 _ Hin). cbn in H2. lia.
  - intros k Hk Heq Hnk. specialize (Hget k Hk). rewrite EF in Hget.
    apply in_app_or in Hget as [Hin|[Heq'|Hin]].
    + specialize (H1 _ Hin). cbn in H1. lia.
    + injection Heq' as -> _. congruence.
    + rewrite EF, map_app in Hs. cbn [map fst] in Hs.
      eapply Tally.StronglySorted_app_inv; [exact Hs|].
      change k with (fst (k, occurrences k keys)). now apply in_map.
Qed.


(** C5, amended: when the column holds at least one value that is not
    null, undefined or the empty string, and no such value's string form
    names a member of [Object.prototype], mode imputation returns after
    writing into every null or empty cell the most frequent such value
    (as a string); when several tie for the highest frequency, the one
    written is the first of them in the enumeration order of the
    frequency table: keys that are array indices in ascending numeric
    order, then the other keys in the order first encountered. *)
Theorem imputeWithMode_writes_most_frequent h data column :
  let keys := map ToString (List.filter present (map (fun row => read h row column) data)) in
  keys <> [] ->
  (forall k, In k keys -> inherited k = false) ->
  exists mode h',
    In mode keys
    /\ (forall k, In k keys -> (occurrences k keys <= occurrences mode keys)%nat)
    /\ (forall k, In k keys -> occurrences k keys = occurrences mode keys -> k <> mode ->
                  enumerated_before keys mode k)
    /\ imputeWithMode h data column = Return h'
    /\ (forall row, In row data -> isNullOrEmpty (read h row column) = true ->
                    read h' row column = VStr mode).
Proof.
  intros keys Hne Hown.
  destruct (imputeWithMode_mode h data column Hne Hown) as (mode & Hin & Hmax & Htie & E).
  exists mode, (fillEach h data column (VStr mode)). repeat split; auto.
  intros row Hrow He. now apply FillEach.fillEach_filled.
Qed.



(** C5, as the claim states it: on [{a:"2"},{a:"1"},{a:null}] the values
    "2" and "1" tie and "2" is encountered first, yet the null is filled
    with "1". *)
Lemma mode_tie_is_not_first_encountered :
  Examples.column_after
    (imputeWithMode (Examples.store_of Examples.rows_2_1_null) [0; 1; 2]%nat "a")
    [0; 1; 2]%nat "a"
  = Some [VStr "2"; VStr "1"; VStr "1"]
  /\ first_most_frequent
       (map ToString
            (List.filter present
               (Examples.column_of (Examples.store_of Examples.rows_2_1_null) [0; 1; 2]%nat "a")))
     = Some "2"%string.
Proof. split; vm_compute; reflexivity. Qed.


(** The statement of C5 at the rows [{a:"2"},{a:"1"},{a:null}]. *)
Lemma imputeWithMode_writes_most_frequent_example :
  map ToString
      (List.filter present
         (map (fun row => read (Examples.store_of Examples.rows_2_1_null) row "a")
              [0; 1; 2]%nat))
  = ["2"; "1"]%string
  /\ exists mode h',
      In mode ["2"; "1"]%string
      /\ imputeWithMode (Examples.store_of Examples.rows_2_1_null) [0; 1; 2]%nat "a" = Return h'
      /\ read h' 2%nat "a" = VStr mode.
Proof.
  split; [reflexivity|].
  assert (Hne : map ToString
                    (List.filter present
                       (map (fun row => read (Examples.store_of Examples.rows_2_1_null) row "a")
                            [0; 1; 2]%nat)) <> []) by (vm_compute; discriminate).
  assert (Hown : forall k,
             In k (map ToString
                     (List.filter present
                        (map (fun row => read (Examples.store_of Examples.rows_2_1_null) row "a")
                             [0; 1; 2]%nat))) -> inherited k = false).
  { intros k [<-|[<-|[]]]; reflexivity. }
  destruct (imputeWithMode_writes_most_frequent _ _ _ Hne Hown)
    as (mode & h' & Hin & _ & _ & E & Hfill).
  exists mode, h'. split; [exact Hin|]. split; [exact E|].
  apply Hfill; [cbn; auto | reflexivity].
Defined.


End Mode.

(** ** Schema inference on a column without values *)

Module Schema.
Import JS ETLProcessor.

Lemma no_values data header :
  (forall row, In row data -> has_value (cell row header) = false) ->
  List.filter has_value (map (fun row => cell row header) data) = [].
Proof.
  induction data as [|row data IH]; intros Hall; [reflexivity|].
  cbn. rewrite (Hall row (or_introl eq_refl)). apply IH.
  intros r Hr. apply Hall. now right.
Qed.

(** C2, as the claim states it: in the dataset [{a:null, b:"x"}] the
    column [a], which has no value, is inferred boolean, not string. *)
Lemma empty_column_is_not_string :
  map type (columns (transformData (H := isoDates) Examples.rows_null_x ["a"; "b"]%string))
  = [boolean_t; string_t]
  /\ map type (detectDataTypes (H := isoDates) Examples.rows_null_x ["a"; "b"]%string)
     = [boolean_t; string_t].
Proof. split; vm_compute; reflexivity. Qed.

(** C2, amended: for every header whose column has no value that is not
    null, undefined or the empty string, [detectDataTypes] returns (and
    raises nothing) a column of type boolean, since [every] holds of an
    empty array and the boolean test comes first, with [nullCount] equal
    to the row count, [uniqueCount] 0 and no numeric statistics. *)
Theorem empty_column_infers_boolean `{DateEngine}
    (data : list Row) (headers : list string) (i : nat) (header : string) :
  nth_error headers i = Some header ->
  (forall row, In row data -> has_value (cell row header) = false) ->
  nth_error (detectDataTypes data headers) i
  = Some {| name := header;
            type := boolean_t;
            nullable := (0 <? List.length data)%nat;
            unique := true;
            stats := Some {| min := None; max := None; avg := None;
                             nullCount := List.length data;
                             uniqueCount := 0 |} |}.
Proof.
  intros Hi Hall. unfold detectDataTypes.
  rewrite nth_error_map, Hi. cbn [option_map]. f_equal.
  unfold detectColumn. rewrite (no_values _ _ Hall). cbn.
  now rewrite Nat.sub_0_r.
Qed.

(** The statement above at the single row [{a:null, b:"x"}]. *)
Lemma empty_column_infers_boolean_example :
  nth_error ["a"; "b"]%string 0 = Some "a"%string
  /\ has_value (cell [("a", VNull); ("b", VStr "x")]%string "a") = false
  /\ nth_error (detectDataTypes (H := isoDates) Examples.rows_null_x ["a"; "b"]%string) 0
     = Some {| name := "a";
               type := boolean_t;
               nullable := true;
               unique := true;
               stats := Some {| min := None; max := None; avg := None;
                                nullCount := 1;
                                uniqueCount := 0 |} |}.
Proof.
  split; [reflexivity|]. split; [reflexivity|].
  apply (empty_column_infers_boolean (H := isoDates) Examples.rows_null_x
                                     ["a"; "b"]%string 0 "a").
  - reflexivity.
  - intros row [<-|[]]. reflexivity.
Defined.

End Schema.

(** ** De-duplication *)

Module Dedup.
Import JS ETLProcessor.

Local Abbreviation rows_of st := (snd (fst st)).
Local Abbreviation count_of st := (snd st).
Local Abbreviation seen_of st := (fst (fst st)).

(** The loop keeps, in order, rows with pairwise distinct keys, and has
    seen exactly their keys. *)
Lemma dedup_distinct data (st : gset string * list Row * nat) :
  (forall k, k ∈ seen_of st <-> In k (map JSON_stringify (rows_of st))) ->
  List.NoDup (map JSON_stringify (rows_of st)) ->
  List.NoDup (map JSON_stringify (rows_of (fold_left dedupStep data st))).
Proof.
  revert st. induction data as [|row data IH]; intros [[seen kept] n] Hseen Hnd; [exact Hnd|].
  cbn [fold_left]. apply IH; unfold dedupStep; cbn [fst snd] in *;
    destruct (decide (JSON_stringify row ∈ seen)) as [Hin|Hnin]; cbn [fst snd]; auto.
  - intros k. rewrite map_app, in_app_iff, <- Hseen. cbn.
    rewrite elem_of_union, elem_of_singleton. intuition congruence.
  - rewrite map_app. cbn [map].
    apply (NoDup_Add (Add_app (JSON_stringify row) (map JSON_stringify kept) [])).
    rewrite app_nil_r. split; [exact Hnd|]. now rewrite <- Hseen.
Qed.

(** Rows with pairwise distinct keys, none of them seen, are all kept and
    none is counted. *)
Lemma dedup_keeps_distinct data (st : gset string * list Row * nat) :
  List.NoDup (map JSON_stringify data) ->
  (forall row, In row data -> JSON_stringify row ∉ seen_of st) ->
  rows_of (fold_left dedupStep data st) = rows_of st ++ data
  /\ count_of (fold_left dedupStep data st) = count_of st.
Proof.
  revert st. induction data as [|row data IH]; intros [[seen kept] n] Hnd Hfresh.
  - cbn. now rewrite app_nil_r.
  - cbn [fold_left map] in *. apply NoDup_cons_iff in Hnd as [Hrow Hnd].
    unfold dedupStep at 2 4.
    destruct (decide (JSON_stringify row ∈ seen)) as [Hin|Hnin].
    + exfalso. apply (Hfresh row); [now left | exact Hin].
    + destruct (IH ({[JSON_stringify row]} ∪ seen, kept ++ [row], n) Hnd) as [E1 E2].
      * intros r Hr. cbn [fst snd]. intros Hin.
        apply elem_of_union in Hin as [Hin|Hin].
        -- apply elem_of_singleton in Hin. apply Hrow. rewrite <- Hin. now apply in_map.
        -- apply (Hfresh r); [now right | exact Hin].
      * cbn [fst snd] in *. rewrite E1, E2, <- app_assoc. now split.
Qed.

Lemma removeDuplicates_fold data :
  removeDuplicates data
  = (rows_of (fold_left dedupStep data (∅, [], O)), count_of (fold_left dedupStep data (∅, [], O))).
Proof. unfold removeDuplicates. now destruct (fold_left dedupStep data (∅, [], O)) as [[? ?] ?]. Qed.

Lemma removeDuplicates_distinct data :
  List.NoDup (map JSON_stringify (fst (removeDuplicates data))).
Proof.
  rewrite removeDuplicates_fold. cbn [fst].
  apply dedup_distinct; cbn; [|constructor]. intros k. set_solver.
Qed.

Lemma removeDuplicates_of_distinct data :
  List.NoDup (map JSON_stringify data) -> removeDuplicates data = (data, O).
Proof.
  intros Hnd. rewrite removeDuplicates_fold.
  destruct (dedup_keeps_distinct data (∅, [], O) Hnd) as [E1 E2]; [intros; set_solver|].
  now rewrite E1, E2.
Qed.

(** X1: de-duplication is idempotent: applied to its own output,
    [removeDuplicates] returns it unchanged and counts no duplicate. *)
Lemma removeDuplicates_idempotent data :
  removeDuplicates (fst (removeDuplicates data)) = (fst (removeDuplicates data), O).
Proof. apply removeDuplicates_of_distinct, removeDuplicates_distinct. Qed.

Lemma filter_distinct (f : Row -> bool) data :
  List.NoDup (map JSON_stringify data) -> List.NoDup (map JSON_stringify (List.filter f data)).
Proof.
  induction data as [|row data IH]; cbn; [auto|]. intros Hnd.
  apply NoDup_cons_iff in Hnd as [Hrow Hnd]. destruct (f row); cbn; auto.
  apply NoDup_cons_iff. split; [|auto].
  intros Hin. apply Hrow. apply in_map_iff in Hin as (r & Er & Hr).
  apply filter_In in Hr as [Hr _]. rewrite <- Er. now apply in_map.
Qed.

Lemma generateQualityReport_duplicateRows rows columns originalRowCount duplicateCount :
  duplicateRows (generateQualityReport rows columns originalRowCount duplicateCount)
  = duplicateCount.
Proof.
  unfold generateQualityReport.
  destruct (0 <? duplicateCount)%nat; destruct (gt _ _); destruct (fold_left _ _ _); reflexivity.
Qed.

Lemma transformData_data `{DateEngine} rawData headers :
  let kept := List.filter (fun row => existsb has_value (Object_values row)) rawData in
  data (transformData rawData headers)
  = fst (removeDuplicates (cleanData kept (detectDataTypes kept headers)))
  /\ duplicateRows (qualityReport (transformData rawData headers))
     = snd (removeDuplicates (cleanData kept (detectDataTypes kept headers))).
Proof.
  intros kept. unfold transformData. fold kept.
  destruct (removeDuplicates (cleanData kept (detectDataTypes kept headers))).
  cbn [data qualityReport fst snd]. split; [reflexivity|].
  apply generateQualityReport_duplicateRows.
Qed.

(** C7, as the claim states it: from the raw rows [{a:" false"},{a:"0"}]
    the first pass keeps the two rows "false" and "0" of a string column;
    the second pass infers that column boolean, turns both cells into
    [false] and reports one duplicate. *)
Lemma second_pass_can_report_a_duplicate :
  data (transformData (H := isoDates) Examples.rows_false_0 ["a"%string])
  = [ [("a", VStr "false")]; [("a", VStr "0")] ]%string
  /\ duplicateRows
       (qualityReport
          (transformData (H := isoDates)
             (data (transformData (H := isoDates) Examples.rows_false_0 ["a"%string]))
             ["a"%string]))
     = 1%nat.
Proof. split; vm_compute; reflexivity. Qed.

(** C7, amended: running [transformData] a second time on the data output
    of a first call, with the same headers, reports [duplicateRows = 0]
    (and returns those rows) whenever the second call's type coercion
    leaves the non-empty rows of that output as they are. *)
Theorem second_pass_reports_no_duplicates `{DateEngine}
    (rawData : list Row) (headers : list string) :
  let first := transformData rawData headers in
  let kept := List.filter (fun row => existsb has_value (Object_values row)) (data first) in
  cleanData kept (detectDataTypes kept headers) = kept ->
  duplicateRows (qualityReport (transformData (data first) headers)) = 0%nat
  /\ data (transformData (data first) headers) = kept.
Proof.
  intros first kept Hfix.
  destruct (transformData_data (data first) headers) as [Ed Ec]. fold kept in Ed, Ec.
  rewrite Hfix in Ed, Ec.
  assert (Hnd : List.NoDup (map JSON_stringify kept)).
  { apply filter_distinct. subst first.
    destruct (transformData_data rawData headers) as [-> _]. apply removeDuplicates_distinct. }
  rewrite (removeDuplicates_of_distinct _ Hnd) in Ed, Ec. now split.
Qed.

(** The statement above at the raw rows [{a:"x"},{a:"x"},{a:"y"}]: the
    first pass keeps "x" and "y", which the second pass leaves as they
    are. *)
Lemma second_pass_reports_no_duplicates_example :
  cleanData (H := isoDates)
    [ [("a", VStr "x")]; [("a", VStr "y")] ]%string
    (detectDataTypes (H := isoDates) [ [("a", VStr "x")]; [("a", VStr "y")] ]%string
                     ["a"%string])
  = [ [("a", VStr "x")]; [("a", VStr "y")] ]%string
  /\ duplicateRows
       (qualityReport
          (transformData (H := isoDates)
             (data (transformData (H := isoDates)
                      [ [("a", VStr "x")]; [("a", VStr "x")]; [("a", VStr "y")] ]%string
                      ["a"%string]))
             ["a"%string]))
     = 0%nat.
Proof.
  split; [vm_compute; reflexivity|].
  refine (proj1 (second_pass_reports_no_duplicates (H := isoDates)
                   [ [("a", VStr "x")]; [("a", VStr "x")]; [("a", VStr "y")] ]%string
                   ["a"%string] _)).
  vm_compute. reflexivity.
Defined.

End Dedup.

(** ** Correlations *)

Module Correlations.
Import JS EnhancedETLProcessor.




(** C9 (code as written): the guard [denominator === 0] tests the
    denominator as rounded, and a column that is constant over the
    co-observed rows, whose variance is zero, need not give it the value
    0.  With 0.1 in each of six rows the denominator comes out as 1.2e-7
    and the correlation returned is 1.4e-8, not 0; with 1.3 in each of
    three rows the product under the square root comes out negative, the
    denominator is NaN, and the correlation returned is NaN. *)
Theorem zero_variance_column_defeats_the_guard :
  map fst (coObserved Examples.rows_constant_x "x" "y") = repeat 0.1%float 6
  /\ calculateAdvancedCorrelations Examples.rows_constant_x
       [Examples.advancedNumeric "x"; Examples.advancedNumeric "y"]
     = [ {| column1 := "x"; column2 := "y"; correlation := 1.4248235336952133e-08%float |} ]
  /\ map fst (coObserved Examples.rows_constant_1_3 "x" "y") = repeat 1.3%float 3
  /\ calculateAdvancedCorrelations Examples.rows_constant_1_3
       [Examples.advancedNumeric "x"; Examples.advancedNumeric "y"]
     = [ {| column1 := "x"; column2 := "y"; correlation := PrimFloat.nan |} ].
Proof. repeat split; vm_compute; reflexivity. Qed.


End Correlations.

(** ** What imputation leaves alone *)

Module Frame.
Import JS DataImputation Notions.

Lemma kept_refl h : kept h h.
Proof. intros row column _. reflexivity. Qed.

(** Writing into a cell that was null or empty at the start. *)
Lemma kept_write_then h0 h row column v :
  kept h0 h -> isNullOrEmpty (read h0 row column) = true -> kept h0 (write h row column v).
Proof.
  intros Hk He r c Hf.
  destruct (string_dec c column) as [->|Hc].
  - destruct (Nat.eq_dec r row) as [->|Hr]; [congruence|].
    rewrite StoreFacts.read_write_other_row by exact Hr. now apply Hk.
  - rewrite StoreFacts.read_write_other_column by exact Hc. now apply Hk.
Qed.

(** Writing into a cell that is null or empty now. *)
Lemma kept_write_now h0 h row column v :
  kept h0 h -> isNullOrEmpty (read h row column) = true -> kept h0 (write h row column v).
Proof.
  intros Hk He. apply kept_write_then; [exact Hk|].
  destruct (isNullOrEmpty (read h0 row column)) eqn:E; [reflexivity|].
  rewrite (Hk _ _ E) in He. congruence.
Qed.

Lemma fillEach_keeps h0 data column v h : kept h0 h -> kept h0 (fillEach h data column v).
Proof.
  unfold fillEach. revert h. induction data as [|row data IH]; intros h Hk; [exact Hk|].
  cbn [fold_left]. apply IH. unfold fillStep.
  destruct (isNullOrEmpty (read h row column)) eqn:E; [now apply kept_write_now | exact Hk].
Qed.

Lemma carry_kept h0 column rows st :
  kept h0 (fst st) -> kept h0 (fst (fold_left (carryStep column) rows st)).
Proof.
  revert st. induction rows as [|row rows IH]; intros [h last] Hk; [exact Hk|].
  cbn [fold_left]. apply IH. unfold carryStep. cbn [fst] in *.
  destruct (isNullOrEmpty (read h row column)) eqn:E; cbn [negb fst]; [|exact Hk].
  destruct (strict_eq last VNull); cbn [negb fst]; [exact Hk | now apply kept_write_now].
Qed.

Lemma interpolation_kept h0 column data h :
  kept h0 h -> kept h0 (imputeWithInterpolation h data column).
Proof.
  intros Hk. unfold imputeWithInterpolation.
  set (numericData := map _ data).
  assert (Hsnap : forall i row, nth_error data i = Some row -> nth i numericData None = None ->
                                isNullOrEmpty (read h0 row column) = true).
  { intros i row Hi Hn.
    assert (E : nth_error numericData i
                = Some (if isNullOrEmpty (read h row column) then None
                        else Some (ToNumber (read h row column)))).
    { unfold numericData. rewrite nth_error_map, Hi. reflexivity. }
    apply (nth_error_nth _ _ None) in E. rewrite Hn in E.
    destruct (isNullOrEmpty (read h0 row column)) eqn:E0; [reflexivity|].
    rewrite (Hk _ _ E0), E0 in E. discriminate. }
  generalize (seq 0 (List.length numericData)). intros indices.
  assert (Hgen : forall h', kept h0 h' ->
            kept h0 (fold_left (interpolateAt numericData data column) indices h')).
  { induction indices as [|i indices IH]; intros h' Hk'; [exact Hk'|].
    cbn [fold_left]. apply IH. unfold interpolateAt.
    destruct (nth i numericData None) eqn:En; [exact Hk'|].
    destruct (nth_error data i) as [row|] eqn:Ei; [|exact Hk'].
    destruct (prevValid numericData i) as [[? ?]|]; [|exact Hk'].
    destruct (nextValid _ _) as [[? ?]|]; [|exact Hk'].
    apply kept_write_then; [exact Hk' | eauto]. }
  now apply Hgen.
Qed.

(** A strategy that returns has kept the values; one that throws has
    written nothing. *)
Lemma applyStrategy_kept h0 h data strategy :
  kept h0 h ->
  match applyStrategy h data strategy with
  | Return h' => kept h0 h'
  | Throw _ => True
  end.
Proof.
  intros Hk. unfold applyStrategy.
  destruct (method strategy).
  - unfold imputeWithMean. destruct (_ =? _)%nat; [exact Hk | now apply fillEach_keeps].
  - unfold imputeWithMedian. destruct (_ =? _)%nat; [exact Hk | now apply fillEach_keeps].
  - unfold imputeWithMode. destruct (_ =? _)%nat; [exact Hk|].
    destruct (Array_sort _ _); [exact I | now apply fillEach_keeps].
  - now apply (carry_kept h0 _ _ (h, VNull)).
  - now apply (carry_kept h0 _ _ (h, VNull)).
  - now apply interpolation_kept.
  - now apply fillEach_keeps.
Qed.

(** X2: whatever the columns and the strategies, [imputeMissingData]
    returns the caller's array of row references and changes no cell that
    held a value: it writes into null or empty cells only. *)
Theorem imputeMissingData_keeps_values h data columns strategies :
  snd (fst (imputeMissingData h data columns strategies)) = data
  /\ kept h (fst (fst (imputeMissingData h data columns strategies))).
Proof.
  unfold imputeMissingData.
  set (step := strategyStep data data columns).
  assert (Hgen : forall st, kept h (fst st) -> kept h (fst (fold_left step strategies st))).
  { induction strategies as [|s strategies IH]; intros [h' results] Hk; [exact Hk|].
    cbn [fold_left]. apply IH. unfold step, strategyStep. cbn [fst] in *.
    destruct (List.find _ columns); cbn [fst]; [|exact Hk].
    pose proof (applyStrategy_kept h h' data s Hk) as Hs.
    destruct (applyStrategy h' data s); cbn [fst]; [exact Hs | exact Hk]. }
  specialize (Hgen (h, []) (kept_refl h)).
  destruct (fold_left step strategies (h, [])) as [h' results]. cbn [fst snd] in *.
  now split.
Qed.

(** The statement above at the cleaned rows [{a:10},{a:null},{a:20}] with
    the mean strategy. *)
Lemma imputeMissingData_keeps_values_example :
  isNullOrEmpty (read (Examples.store_of Examples.rows_10_null_20) 0%nat "a") = false
  /\ read (fst (fst (imputeMissingData (Examples.store_of Examples.rows_10_null_20)
                        [0; 1; 2]%nat [Examples.numericColumn "a"]
                        [Examples.strategy "a" mean])))
          0%nat "a"
     = VNum 10%float.
Proof.
  split; [reflexivity|].
  exact (proj2 (imputeMissingData_keeps_values
                  (Examples.store_of Examples.rows_10_null_20) [0; 1; 2]%nat
                  [Examples.numericColumn "a"] [Examples.strategy "a" mean])
               0%nat "a"%string eq_refl).
Defined.

End Frame.

(** ** Mean and median imputation *)

Module MeanMedian.
Import JS DataImputation.

Lemma sort_insert_length {A} (after : A -> A -> bool) x l :
  List.length (sort_insert after x l) = S (List.length l).
Proof.
  induction l as [|y l IH]; cbn; [reflexivity|].
  destruct (after x y); cbn; [now rewrite IH | reflexivity].
Qed.

Lemma Array_sort_length {A} (after : A -> A -> bool) l :
  List.length (Array_sort after l) = List.length l.
Proof.
  unfold Array_sort. induction l as [|x l IH]; cbn [fold_right]; [reflexivity|].
  rewrite sort_insert_length, IH. reflexivity.
Qed.

Lemma some_numeric h data column :
  (exists row, In row data /\ numeric (read h row column) = true) ->
  List.length (map ToNumber (List.filter numeric (map (fun row => read h row column) data)))
  <> 0%nat.
Proof.
  intros (row & Hin & Hn).
  assert (H : In (read h row column)
                 (List.filter numeric (map (fun row => read h row column) data))).
  { apply filter_In. split; [|exact Hn]. now apply (in_map (fun row => read h row column)). }
  rewrite length_map. destruct (List.filter _ _); [destruct H | discriminate].
Qed.

(** X3: when the column holds at least one value that converts to a
    number, mean imputation writes the arithmetic mean of those numbers,
    and median imputation writes a number, into every null or empty cell
    of the column. *)
Theorem mean_and_median_fill_every_null h data column :
  (exists row, In row data /\ numeric (read h row column) = true) ->
  let validValues :=
    map ToNumber (List.filter numeric (map (fun row => read h row column) data)) in
  forall row, In row data -> isNullOrEmpty (read h row column) = true ->
    read (imputeWithMean h data column) row column
    = VNum (PrimFloat.div (sum validValues) (of_nat (List.length validValues)))
    /\ exists median, read (imputeWithMedian h data column) row column = VNum median.
Proof.
  intros Hsome validValues row Hrow He. pose proof (some_numeric _ _ _ Hsome) as Hn.
  fold validValues in Hn. split.
  - unfold imputeWithMean. fold validValues.
    destruct (List.length validValues =? 0)%nat eqn:E; [apply Nat.eqb_eq in E; congruence|].
    now apply FillEach.fillEach_filled.
  - unfold imputeWithMedian. fold validValues. rewrite Array_sort_length.
    destruct (List.length validValues =? 0)%nat eqn:E; [apply Nat.eqb_eq in E; congruence|].
    eexists. now apply FillEach.fillEach_filled.
Qed.

(** The statement above at the rows [{a:"1"},{a:"2"},{a:null},{a:"4"}]. *)
Lemma mean_and_median_fill_every_null_example :
  numeric (read (Examples.store_of Examples.rows_1_2_null_4) 0%nat "a") = true
  /\ isNullOrEmpty (read (Examples.store_of Examples.rows_1_2_null_4) 2%nat "a") = true
  /\ read (imputeWithMean (Examples.store_of Examples.rows_1_2_null_4) [0; 1; 2; 3]%nat "a")
          2%nat "a"
     = VNum 2.3333333333333335%float.
Proof.
  split; [reflexivity|]. split; [reflexivity|].
  refine (proj1 (mean_and_median_fill_every_null
                   (Examples.store_of Examples.rows_1_2_null_4) [0; 1; 2; 3]%nat "a" _
                   2%nat _ _)).
  - exists 0%nat. split; [cbn; auto | reflexivity].
  - cbn; auto.
  - reflexivity.
Defined.

End MeanMedian.

(** ** The correlation is symmetric *)

Module PearsonSymmetry.
Import JS EnhancedETLProcessor.

Lemma SFmul_comm (a b : spec_float) : SFmul prec emax a b = SFmul prec emax b a.
Proof.
  destruct a as [sa|sa| |sa ma ea], b as [sb|sb| |sb mb eb]; cbn;
    rewrite ?(xorb_comm sa sb); try reflexivity.
  now rewrite (Pos.mul_comm ma mb), (Z.add_comm ea eb).
Qed.

(** Floating-point multiplication commutes. *)
Lemma float_mul_comm (a b : float) : PrimFloat.mul a b = PrimFloat.mul b a.
Proof. apply Prim2SF_inj. rewrite !mul_spec. apply SFmul_comm. Qed.

Local Abbreviation dot acc p := (PrimFloat.add acc (PrimFloat.mul (fst p) (snd p))).

(** [sum + xi * y[i]] over the indices is the sum over the paired values. *)
Lemma indexed_products (y : list number) n :
  forall (x : list number) k acc,
    (k + n <= List.length y)%nat ->
    fold_left
      (fun acc (xi_i : number * nat) =>
         PrimFloat.add acc (PrimFloat.mul (fst xi_i) (nth (snd xi_i) y PrimFloat.nan)))
      (combine (firstn n x) (seq k n)) acc
    = fold_left (fun acc (p : number * number) => dot acc p)
                (combine (firstn n x) (firstn n (skipn k y))) acc.
Proof.
  induction n as [|n IH]; intros x k acc Hk; [reflexivity|].
  destruct x as [|a x]; [reflexivity|].
  destruct (skipn k y) as [|b rest] eqn:Es.
  { exfalso. apply (f_equal (@List.length _)) in Es. rewrite length_skipn in Es. cbn in Es. lia. }
  cbn [firstn seq combine fold_left fst snd].
  assert (Hb : nth k y PrimFloat.nan = b).
  { rewrite <- (firstn_skipn k y) at 1. rewrite app_nth2; rewrite length_firstn; [|lia].
    replace (k - Nat.min k (List.length y))%nat with 0%nat by lia. now rewrite Es. }
  rewrite Hb, (IH x (S k)) by lia.
  assert (Er : skipn (S k) y = rest).
  { replace (S k) with (1 + k)%nat by lia. rewrite <- skipn_skipn, Es. reflexivity. }
  now rewrite Er.
Qed.

Lemma paired_products_comm (a b : list number) acc :
  fold_left (fun acc (p : number * number) => dot acc p) (combine a b) acc
  = fold_left (fun acc (p : number * number) => dot acc p) (combine b a) acc.
Proof.
  revert b acc. induction a as [|u a IH]; intros [|v b] acc; try reflexivity.
  cbn [combine fold_left fst snd]. now rewrite (float_mul_comm u v), IH.
Qed.

Lemma sumXY_comm (x y : list number) : sumXY x y = sumXY y x.
Proof.
  unfold sumXY, pearson_n. rewrite (Nat.min_comm (List.length y) (List.length x)).
  set (n := Nat.min (List.length x) (List.length y)).
  rewrite !indexed_products by (unfold n; lia).
  cbn [skipn]. apply paired_products_comm.
Qed.

(** X5: the correlation does not depend on the order of its two
    arguments: [calculatePearsonCorrelation(x, y)] and
    [calculatePearsonCorrelation(y, x)] are the same number, bit for bit. *)
Theorem calculatePearsonCorrelation_symmetric (x y : list number) :
  calculatePearsonCorrelation x y = calculatePearsonCorrelation y x.
Proof.
  assert (En : pearson_n x y = pearson_n y x) by apply Nat.min_comm.
  assert (Ex : sumX x y = sumY y x) by (unfold sumX, sumY; now rewrite En).
  assert (Ey : sumY x y = sumX y x) by (unfold sumX, sumY; now rewrite En).
  assert (Ex2 : sumX2 x y = sumY2 y x) by (unfold sumX2, sumY2; now rewrite En).
  assert (Ey2 : sumY2 x y = sumX2 y x) by (unfold sumX2, sumY2; now rewrite En).
  assert (Enum : numerator x y = numerator y x).
  { unfold numerator. rewrite En, (sumXY_comm x y), Ex, Ey. f_equal. apply float_mul_comm. }
  assert (Eden : denominator x y = denominator y x).
  { unfold denominator. rewrite En, Ex, Ey, Ex2, Ey2. f_equal. apply float_mul_comm. }
  unfold calculatePearsonCorrelation. now rewrite En, Enum, Eden.
Qed.

End PearsonSymmetry.

(** ** The cleaning pipeline *)

Module Pipeline.
Import JS ETLProcessor.

Local Abbreviation rows_of st := (snd (fst st)).
Local Abbreviation count_of st := (snd st).
Local Abbreviation seen_of st := (fst (fst st)).
Local Abbreviation keys_of st := (map JSON_stringify (snd (fst st))).

Lemma dedup_accounting data (st : gset string * list Row * nat) :
  (List.length (rows_of (fold_left dedupStep data st)) + count_of (fold_left dedupStep data st)
   = List.length (rows_of st) + count_of st + List.length data)%nat.
Proof.
  revert st. induction data as [|row data IH]; intros [[seen kept] n]; cbn [fold_left].
  - cbn. lia.
  - rewrite IH. unfold dedupStep.
    destruct (decide (JSON_stringify row ∈ seen)); cbn [fst snd List.length];
      rewrite ?length_app; cbn; lia.
Qed.

Lemma dedup_sublist data (st : gset string * list Row * nat) :
  exists sub, rows_of (fold_left dedupStep data st) = rows_of st ++ sub /\ sublist sub data.
Proof.
  revert st. induction data as [|row data IH]; intros [[seen kept] n]; cbn [fold_left].
  - exists []. cbn. rewrite app_nil_r. split; [reflexivity | constructor].
  - unfold dedupStep at 2. destruct (decide (JSON_stringify row ∈ seen)).
    + destruct (IH (seen, kept, S n)) as (sub & E & Hs). exists sub. split; [exact E|].
      now apply sublist_cons.
    + destruct (IH ({[JSON_stringify row]} ∪ seen, kept ++ [row], n)) as (sub & E & Hs).
      exists (row :: sub). cbn [fst snd] in *. rewrite E, <- app_assoc. split; [reflexivity|].
      now apply sublist_skip.
Qed.

Lemma dedupStep_seen (st : gset string * list Row * nat) row :
  (forall k, k ∈ seen_of st <-> In k (keys_of st)) ->
  (forall k, k ∈ seen_of (dedupStep st row) <-> In k (keys_of (dedupStep st row)))
  /\ In (JSON_stringify row) (keys_of (dedupStep st row)).
Proof.
  destruct st as [[seen kept] n]. cbn [fst snd]. intros Hseen. unfold dedupStep.
  destruct (decide (JSON_stringify row ∈ seen)) as [Hin|Hnin]; cbn [fst snd].
  - split; [exact Hseen | now apply Hseen].
  - split.
    + intros k. rewrite map_app, in_app_iff, <- Hseen. cbn.
      rewrite elem_of_union, elem_of_singleton. intuition congruence.
    + rewrite map_app, in_app_iff. right. now left.
Qed.

Lemma dedup_covers data (st : gset string * list Row * nat) :
  (forall k, k ∈ seen_of st <-> In k (keys_of st)) ->
  forall row, In row data -> In (JSON_stringify row) (keys_of (fold_left dedupStep data st)).
Proof.
  revert st. induction data as [|r data IH]; intros st Hseen row []; cbn [fold_left].
  - subst r. destruct (dedupStep_seen st row Hseen) as [_ Hin].
    destruct (dedup_sublist data (dedupStep st row)) as (sub & -> & _).
    rewrite map_app, in_app_iff. now left.
  - apply IH; [|assumption]. now apply dedupStep_seen.
Qed.

Lemma removeDuplicates_fold_sublist (data : list Row) : sublist (fst (removeDuplicates data)) data.
Proof.
  rewrite Dedup.removeDuplicates_fold. cbn [fst].
  destruct (dedup_sublist data (∅, [], O)) as (sub & -> & Hs). exact Hs.
Qed.

(** X6: [removeDuplicates] accounts for every row: the rows kept and the
    duplicates counted add up to the input; the rows kept are rows of the
    input, in the input's order; no two of them serialize alike; and every
    input row serializes like one of them. *)
Theorem removeDuplicates_keeps_one_row_per_key (data : list Row) :
  let kept := fst (removeDuplicates data) in
  let duplicateCount := snd (removeDuplicates data) in
  (List.length kept + duplicateCount = List.length data)%nat
  /\ sublist kept data
  /\ List.NoDup (map JSON_stringify kept)
  /\ forall row, In row data -> In (JSON_stringify row) (map JSON_stringify kept).
Proof.
  cbn zeta. rewrite Dedup.removeDuplicates_fold. cbn [fst snd]. repeat split.
  - rewrite dedup_accounting. cbn. lia.
  - destruct (dedup_sublist data (∅, [], O)) as (sub & -> & Hs). exact Hs.
  - apply Dedup.dedup_distinct; cbn; [|constructor]. intros k. set_solver.
  - apply dedup_covers. cbn. intros k. set_solver.
Qed.

Lemma generateQualityReport_totals rows columns originalRowCount duplicateCount :
  totalRows (generateQualityReport rows columns originalRowCount duplicateCount)
  = List.length rows
  /\ totalColumns (generateQualityReport rows columns originalRowCount duplicateCount)
     = List.length columns
  /\ nullValues (generateQualityReport rows columns originalRowCount duplicateCount)
     = fold_left (fun sum col => (sum + stats_nullCount col)%nat) columns O.
Proof.
  unfold generateQualityReport.
  destruct (0 <? duplicateCount)%nat; destruct (gt _ _); destruct (fold_left (columnPass _) _ _);
    repeat split.
Qed.

Section Transform.
Context `{DateEngine}.
Variables (rawData : list Row) (headers : list string).

Local Abbreviation nonEmpty :=
  (List.filter (fun row => existsb has_value (Object_values row)) rawData).

Lemma transformData_parts :
  let p := transformData rawData headers in
  data p = fst (removeDuplicates (cleanData nonEmpty (detectDataTypes nonEmpty headers)))
  /\ columns p = detectDataTypes nonEmpty headers
  /\ qualityReport p
     = generateQualityReport (data p) (columns p) (List.length rawData)
         (snd (removeDuplicates (cleanData nonEmpty (detectDataTypes nonEmpty headers))))
  /\ originalRowCount p = List.length rawData
  /\ cleanedRowCount p = List.length (data p).
Proof.
  unfold transformData.
  destruct (removeDuplicates (cleanData nonEmpty (detectDataTypes nonEmpty headers))).
  cbn. repeat split.
Qed.

(** X7: [transformData] accounts for every raw row: the rows it returns,
    the duplicates it reports and the raw rows without any value add up
    to [originalRowCount]; [cleanedRowCount] and the report's [totalRows]
    are the number of rows returned. *)
Theorem transformData_accounts_for_every_row :
  let p := transformData rawData headers in
  let emptyRows :=
    List.filter (fun row => negb (existsb has_value (Object_values row))) rawData in
  (cleanedRowCount p + duplicateRows (qualityReport p) + List.length emptyRows
   = originalRowCount p)%nat
  /\ cleanedRowCount p = List.length (data p)
  /\ totalRows (qualityReport p) = List.length (data p).
Proof.
  cbn zeta. destruct transformData_parts as (Ed & Ec & Eq & Eo & En).
  rewrite Eq, Eo, En, Dedup.generateQualityReport_duplicateRows.
  repeat split; [|apply generateQualityReport_totals].
  rewrite Ed.
  pose proof (dedup_accounting (cleanData nonEmpty (detectDataTypes nonEmpty headers))
                (∅, [], O)) as Ha.
  rewrite Dedup.removeDuplicates_fold. cbn [fst snd] in *. rewrite Ha. cbn.
  unfold cleanData. rewrite length_map.
  apply (filter_length (fun row => existsb has_value (Object_values row)) rawData).
Qed.

End Transform.

End Pipeline.

(** ** What the cleaned rows hold *)

Module CleanedRows.
Import JS ETLProcessor Notions.

Local Abbreviation starts_clean s :=
  (match s with EmptyString => True | String c _ => is_white_space c = false end).

Lemma trimStart_starts_clean s : starts_clean (trimStart s).
Proof.
  induction s as [|c s IH]; cbn; [exact I|].
  destruct (is_white_space c) eqn:E; [exact IH | exact E].
Qed.

Lemma trimStart_fixed s : starts_clean s -> trimStart s = s.
Proof. destruct s as [|c s]; cbn; [reflexivity|]. now intros ->. Qed.

Lemma trimEnd_idempotent s : trimEnd (trimEnd s) = trimEnd s.
Proof.
  induction s as [|c s IH]; cbn; [reflexivity|].
  destruct (is_white_space c && String.eqb (trimEnd s) EmptyString) eqn:E; cbn; [reflexivity|].
  now rewrite IH, E.
Qed.

Lemma trimEnd_starts_clean s : starts_clean s -> starts_clean (trimEnd s).
Proof.
  destruct s as [|c s]; cbn; [auto|]. intros E. rewrite E. cbn. exact E.
Qed.

(** Trimming a trimmed string changes nothing. *)
Lemma trim_idempotent s : trim (trim s) = trim s.
Proof.
  unfold trim.
  rewrite (trimStart_fixed (trimEnd (trimStart s))).
  - apply trimEnd_idempotent.
  - apply trimEnd_starts_clean, trimStart_starts_clean.
Qed.

Section Props.
Context {A : Type}.
Implicit Types (o : obj A) (k : string) (v : A).

Lemma prop_set_NoDup o k v :
  List.NoDup (Object_keys o) -> List.NoDup (Object_keys (prop_set o k v)).
Proof.
  unfold Object_keys, prop_set. intros Hnd. destruct (prop_get o k) eqn:E.
  - now rewrite ObjectFacts.prop_replace_keys.
  - destruct (Tally.prop_create_keys o k v) as (l1 & l2 & E1 & E2 & _ & _).
    rewrite E2. apply (NoDup_Add (Add_app k l1 l2)). rewrite <- E1. split; [exact Hnd|].
    now apply ObjectFacts.prop_get_None.
Qed.

End Props.

Section Clean.
Context `{DateEngine}.

Lemma cleanCell_coerced (col : DataColumn) (val : value) :
  coerced (type col) (cleanCell col val).
Proof.
  unfold cleanCell, coerced. destruct (negb (has_value val)); [now left|].
  destruct (type col).
  - right. eexists. split; [reflexivity | apply trim_idempotent].
  - destruct (PrimFloat.is_nan (ToNumber val)) eqn:E; [now left|]. right. eauto.
  - destruct (PrimFloat.is_nan (Date_new val)); [now left|]. right. eauto.
  - right. destruct val; eauto.
Qed.

Lemma cleanRow_snoc (cols : list DataColumn) (col : DataColumn) (row : Row) :
  cleanRow (cols ++ [col]) row
  = prop_set (cleanRow cols row) (name col) (cleanCell col (cell row (name col))).
Proof. unfold cleanRow. now rewrite fold_left_app. Qed.

Lemma cleanRow_keys (cols : list DataColumn) (row : Row) k :
  In k (Object_keys (cleanRow cols row)) <-> In k (map name cols).
Proof.
  induction cols as [|col cols IH] using rev_ind; [cbn; tauto|].
  rewrite cleanRow_snoc, ObjectFacts.prop_set_keys, IH, map_app, in_app_iff. cbn. intuition congruence.
Qed.

Lemma cleanRow_NoDup (cols : list DataColumn) (row : Row) :
  List.NoDup (Object_keys (cleanRow cols row)).
Proof.
  induction cols as [|col cols IH] using rev_ind; [constructor|].
  rewrite cleanRow_snoc. now apply prop_set_NoDup.
Qed.

Lemma cleanRow_get (cols : list DataColumn) (row : Row) k v :
  prop_get (cleanRow cols row) k = Some v ->
  exists col, In col cols /\ name col = k /\ v = cleanCell col (cell row k).
Proof.
  induction cols as [|col cols IH] using rev_ind; [discriminate|].
  rewrite cleanRow_snoc. destruct (string_dec k (name col)) as [->|Hne].
  - rewrite ObjectFacts.prop_get_set_same. intros [= <-].
    exists col. rewrite in_app_iff. cbn. tauto.
  - rewrite ObjectFacts.prop_get_set_other by exact Hne. intros Hg.
    destruct (IH Hg) as (c & Hc & En & Ev). exists c. rewrite in_app_iff. tauto.
Qed.

Lemma transformData_rows (rawData : list Row) (headers : list string) row :
  In row (data (transformData rawData headers)) ->
  exists raw, row = cleanRow (columns (transformData rawData headers)) raw.
Proof.
  destruct (Pipeline.transformData_parts rawData headers) as (Ed & Ec & _).
  rewrite Ed, Ec. intros Hin.
  pose proof (Pipeline.removeDuplicates_fold_sublist
                (cleanData
                   (List.filter (fun row => existsb has_value (Object_values row)) rawData)
                   (detectDataTypes
                      (List.filter (fun row => existsb has_value (Object_values row)) rawData)
                      headers))) as Hs.
  apply list_elem_of_In in Hin. apply (fun H => elem_of_sublist _ _ _ H Hs) in Hin.
  apply list_elem_of_In in Hin. unfold cleanData in Hin.
  apply in_map_iff in Hin as (raw & <- & _). now exists raw.
Qed.

(** X8: when no header names a member of [Object.prototype], every row
    [transformData] returns has exactly the headers as its keys, each
    once, whatever properties the raw row had. *)
Theorem cleaned_rows_have_the_headers (rawData : list Row) (headers : list string) (row : Row) :
  (forall header, In header headers -> inherited header = false) ->
  In row (data (transformData rawData headers)) ->
  (forall k, In k (Object_keys row) <-> In k headers) /\ List.NoDup (Object_keys row).
Proof.
  intros _ Hin. destruct (transformData_rows _ _ _ Hin) as (raw & ->).
  split; [|apply cleanRow_NoDup]. intros k. rewrite cleanRow_keys.
  destruct (Pipeline.transformData_parts rawData headers) as (_ & -> & _).
  unfold detectDataTypes. rewrite map_map. cbn. now rewrite map_id.
Qed.

(** X9: when no header names a member of [Object.prototype], in every
    row [transformData] returns the cell of a column of the schema is
    [null] or a value of the column's type: a number that is not NaN in a
    number column, a boolean in a boolean column, a string in a date
    column, a trimmed string in a string column. *)
Theorem cleaned_cells_have_the_column_type
    (rawData : list Row) (headers : list string) (row : Row) (col : DataColumn) :
  (forall header, In header headers -> inherited header = false) ->
  In row (data (transformData rawData headers)) ->
  In col (columns (transformData rawData headers)) ->
  coerced (type col) (cell row (name col)).
Proof.
  intros _ Hrow Hcol. destruct (transformData_rows _ _ _ Hrow) as (raw & ->).
  assert (Hk : In (name col) (Object_keys (cleanRow (columns (transformData rawData headers)) raw))).
  { apply cleanRow_keys. now apply in_map. }
  unfold cell.
  destruct (prop_get (cleanRow (columns (transformData rawData headers)) raw) (name col))
    as [v|] eqn:E; [|now apply ObjectFacts.prop_get_None in E].
  destruct (cleanRow_get _ _ _ _ E) as (col' & Hcol' & En & ->).
  assert (col' = col) as ->; [|apply cleanCell_coerced].
  destruct (Pipeline.transformData_parts rawData headers) as (_ & Ec & _).
  rewrite Ec in Hcol, Hcol'. unfold detectDataTypes in Hcol, Hcol'.
  apply in_map_iff in Hcol as (h & <- & _). apply in_map_iff in Hcol' as (h' & <- & _).
  cbn in En. now subst h'.
Qed.

End Clean.

Lemma cleaned_rows_have_the_headers_example :
  (forall k, In k (Object_keys [("a", VNum 1%float); ("b", VNull)]%string)
             <-> In k ["a"; "b"]%string)
  /\ List.NoDup (Object_keys [("a", VNum 1%float); ("b", VNull)]%string).
Proof.
  apply (cleaned_rows_have_the_headers (H := isoDates)
           [ [("b", VStr EmptyString); ("a", VStr " 1 "); ("c", VStr "dropped")] ]%string
           ["a"; "b"]%string).
  - intros header [<-|[<-|[]]]; reflexivity.
  - vm_compute. left. reflexivity.
Defined.

Lemma cleaned_cells_have_the_column_type_example :
  coerced number_t (VNum 1%float).
Proof.
  apply (cleaned_cells_have_the_column_type (H := isoDates)
           [ [("b", VStr EmptyString); ("a", VStr " 1 "); ("c", VStr "dropped")] ]%string
           ["a"; "b"]%string
           [("a", VNum 1%float); ("b", VNull)]%string
           (detectColumn (H := isoDates)
              [ [("b", VStr EmptyString); ("a", VStr " 1 "); ("c", VStr "dropped")] ]%string
              "a"%string)).
  - intros header [<-|[<-|[]]]; reflexivity.
  - vm_compute. left. reflexivity.
  - vm_compute. left. reflexivity.
Defined.

End CleanedRows.

(** ** The report *)

Module Report.
Import JS ETLProcessor.

Lemma columnPass_step totalRows (acc : list string * list string) (col : DataColumn) :
  List.length (fst acc) = List.length (snd acc) ->
  List.length (fst (columnPass totalRows acc col))
  = List.length (snd (columnPass totalRows acc col))
  /\ (List.length (fst (columnPass totalRows acc col)) <= S (List.length (fst acc)))%nat.
Proof.
  destruct acc as [issues suggestions]. unfold columnPass. cbn [fst snd]. intros Hl.
  destruct (stats col) as [s|]; [destruct (gt _ _)|]; cbn [fst snd]; rewrite ?length_app;
    cbn [List.length]; lia.
Qed.

Lemma columnPass_lengths totalRows (cols : list DataColumn) (acc : list string * list string) :
  List.length (fst acc) = List.length (snd acc) ->
  List.length (fst (fold_left (columnPass totalRows) cols acc))
  = List.length (snd (fold_left (columnPass totalRows) cols acc))
  /\ (List.length (fst (fold_left (columnPass totalRows) cols acc))
      <= List.length (fst acc) + List.length cols)%nat.
Proof.
  revert acc. induction cols as [|col cols IH]; intros acc Hl; cbn [fold_left].
  - split; [exact Hl | lia].
  - destruct (columnPass_step totalRows acc col Hl) as [E1 L1].
    destruct (IH _ E1) as [E L]. split; [exact E|]. cbn [List.length]. lia.
Qed.

(** X10: the report lists one suggestion per issue, and at most two issues
    more than there are columns. *)
Theorem every_issue_has_its_suggestion
    (rows : list Row) (columns : list DataColumn) (originalRowCount duplicateCount : nat) :
  let report := generateQualityReport rows columns originalRowCount duplicateCount in
  List.length (issues report) = List.length (suggestions report)
  /\ (List.length (issues report) <= 2 + List.length columns)%nat.
Proof.
  cbn zeta. unfold generateQualityReport.
  set (first := if (0 <? duplicateCount)%nat then _ else _).
  assert (H1 : List.length (fst first) = List.length (snd first)
               /\ (List.length (fst first) <= 1)%nat).
  { subst first. destruct (0 <? duplicateCount)%nat; cbn; lia. }
  destruct first as [i1 s1]. cbn [fst snd] in H1.
  set (second := if gt _ _ then _ else _).
  assert (H2 : List.length (fst second) = List.length (snd second)
               /\ (List.length (fst second) <= 2)%nat).
  { subst second. destruct (gt _ _); cbn [fst snd]; rewrite ?length_app; cbn; lia. }
  destruct second as [i2 s2]. cbn [fst snd] in H2.
  destruct (columnPass_lengths (List.length rows) columns (i2, s2) (proj1 H2)) as [E L].
  destruct (fold_left (columnPass (List.length rows)) columns (i2, s2)) as [i3 s3].
  cbn [issues suggestions fst snd] in *. lia.
Qed.

(** *** The range of the quality score *)

Lemma digits2_pos_bound (m : positive) : (Z.pos m < 2 ^ Z.pos (digits2_pos m))%Z.
Proof.
  induction m as [m IH|m IH|]; cbn [digits2_pos]; [| |reflexivity];
    rewrite Pos2Z.inj_succ, Z.pow_succ_r by lia; lia.
Qed.

Lemma valid_mantissa_bound (s : bool) (m : positive) (e : Z) :
  valid_binary (S754_finite s m e) = true -> (Z.pos m < 2 ^ 53)%Z.
Proof.
  unfold valid_binary, SpecFloat.valid_binary, bounded, canonical_mantissa, fexp.
  intros Hv. apply andb_prop in Hv as [Hc _]. apply Z.eqb_eq in Hc.
  pose proof (digits2_pos_bound m) as Hd.
  assert (Z.pos (digits2_pos m) <= 53)%Z by (unfold prec in Hc; lia).
  eapply Z.lt_le_trans; [exact Hd|]. apply Z.pow_le_mono_r; lia.
Qed.

(** The clamp [Math.max(0, Math.min(100, q))] is NaN, zero, or a positive
    number that 100 does not lie below. *)
Lemma clamp_cases (q : number) :
  let c := Math_max2 0%float (Math_min2 100%float q) in
  c = PrimFloat.nan \/ c = 0%float
  \/ (PrimFloat.ltb 0%float c = true /\ PrimFloat.ltb 100%float c = false).
Proof.
  cbn zeta. unfold Math_min2.
  change (PrimFloat.is_nan 100%float) with false. cbn [orb].
  destruct (PrimFloat.is_nan q) eqn:Hq; [now left|].
  assert (Hmax : forall x, PrimFloat.is_nan x = false -> PrimFloat.ltb 100%float x = false ->
            Math_max2 0%float x = 0%float
            \/ (PrimFloat.ltb 0%float (Math_max2 0%float x) = true
                /\ PrimFloat.ltb 100%float (Math_max2 0%float x) = false)).
  { intros x Hx Hle. unfold Math_max2. change (PrimFloat.is_nan 0%float) with false. rewrite Hx.
    cbn [orb]. destruct (PrimFloat.ltb 0%float x) eqn:E0; [now right|].
    destruct (PrimFloat.ltb x 0%float); [now left|].
    change (is_neg_zero 0%float) with false. now left. }
  destruct (PrimFloat.ltb 100%float q) eqn:H100.
  - right. right. split; reflexivity.
  - right. destruct (PrimFloat.ltb q 100%float); [now apply Hmax|].
    change (is_neg_zero 100%float) with false. cbn iota. now apply Hmax.
Qed.

(** Rounding a positive number that 100 does not lie below gives an
    integer from 0 to 100. *)
Lemma round_in_range (c : number) :
  PrimFloat.ltb 0%float c = true -> PrimFloat.ltb 100%float c = false ->
  exists r : Z, (0 <= r <= 100)%Z /\ Math_round c = of_Z r.
Proof.
  rewrite !ltb_spec. intros H0 H100. pose proof (Prim2SF_valid c) as Hv.
  unfold Math_round.
  change (Prim2SF 0%float) with (S754_zero false) in H0.
  change (Prim2SF 100%float) with (S754_finite false 7036874417766400 (-46)) in H100.
  destruct (Prim2SF c) as [s|s| |s m e]; try discriminate.
  - destruct s; discriminate.
  - destruct s; [discriminate|].
    apply valid_mantissa_bound in Hv.
    unfold SFltb, SFcompare in H100.
    assert (He : (e < -46 \/ (e = -46 /\ Z.pos m <= 7036874417766400))%Z).
    { destruct (Z.compare_spec (-46) e) as [E|E|E]; [|discriminate|lia].
      subst e. right. split; [reflexivity|].
      destruct (Pos.compare_cont Eq 7036874417766400 m) eqn:Ec; try discriminate.
      - apply Pos.compare_eq in Ec. rewrite <- Ec. apply Z.le_refl.
      - change (Pos.compare_cont Eq 7036874417766400 m) with (Pos.compare 7036874417766400 m) in Ec.
        apply Pos.compare_gt_iff in Ec. apply Z.lt_le_incl. exact (Pos2Z.pos_lt_pos _ _ Ec). }
    assert (Hneg : (0 <=? e)%Z = false) by (apply Z.leb_gt; lia).
    rewrite Hneg, andb_false_r.
    eexists. split; [|reflexivity].
    rewrite Z.shiftr_div_pow2, Z.shiftl_mul_pow2 by lia. rewrite Z.mul_1_l.
    assert (Hk : (2 ^ (- e) = 2 * 2 ^ (- e - 1))%Z).
    { rewrite <- Z.pow_succ_r by lia. f_equal. lia. }
    assert (Hp : (0 < 2 ^ (- e - 1))%Z) by (apply Z.pow_pos_nonneg; lia).
    split.
    + apply Z.div_pos; lia.
    + apply Z.lt_succ_r. apply Z.div_lt_upper_bound; [lia|].
      destruct He as [He|[-> Hm]].
      * assert (2 ^ 46 <= 2 ^ (- e - 1))%Z by (apply Z.pow_le_mono_r; lia).
        change (2 ^ 53)%Z with (128 * 2 ^ 46)%Z in Hv. lia.
      * change (2 ^ (- -46))%Z with 70368744177664%Z in *.
        change (2 ^ (- -46 - 1))%Z with 35184372088832%Z in *. lia.
Qed.

(** X11: the quality score of a report is NaN or an integer from 0 to
    100, whatever the rows, the columns and the counts. *)
Theorem qualityScore_is_NaN_or_from_0_to_100
    (rows : list Row) (columns : list DataColumn) (originalRowCount duplicateCount : nat) :
  let score := qualityScore (generateQualityReport rows columns originalRowCount duplicateCount) in
  score = PrimFloat.nan \/ exists r : Z, (0 <= r <= 100)%Z /\ score = of_Z r.
Proof.
  cbn zeta. unfold generateQualityReport.
  destruct (if (0 <? duplicateCount)%nat then _ else _) as [i1 s1].
  destruct (if gt _ _ then _ else _) as [i2 s2].
  destruct (fold_left _ _ _) as [i3 s3]. cbn [qualityScore].
  match goal with |- Math_round (Math_max2 _ (Math_min2 _ ?q)) = _ \/ _ =>
    destruct (clamp_cases q) as [->|[->|[H0 H100]]] end.
  - now left.
  - right. exists 0%Z. split; [lia | reflexivity].
  - right. now apply round_in_range.
Qed.

End Report.

(** ** Strategies at the edges *)

Module Strategies.
Import JS DataImputation Notions.









(** X13: [custom] imputation with a value that is not null or empty
    leaves no null or empty cell in the column; with a custom value that
    is itself null, empty or left out, the column has as many null or
    empty cells after the call as before. *)
Theorem custom_value_fills_or_changes_nothing h data column customValue :
  (isNullOrEmpty customValue = false ->
   countNullValues (imputeWithCustomValue h data column customValue) data column = 0%nat)
  /\ (isNullOrEmpty customValue = true ->
      countNullValues (imputeWithCustomValue h data column customValue) data column
      = countNullValues h data column).
Proof.
  unfold imputeWithCustomValue. split; intros Hv.
  - apply StoreFacts.countNullValues_zero. intros row Hrow.
    destruct (isNullOrEmpty (read h row column)) eqn:E.
    + now rewrite FillEach.fillEach_filled.
    + now rewrite FillEach.fillEach_kept.
  - rewrite !StoreFacts.countNullValues_spec. f_equal. apply filter_ext_in. intros row Hrow.
    destruct (isNullOrEmpty (read h row column)) eqn:E.
    + now rewrite FillEach.fillEach_filled.
    + now rewrite FillEach.fillEach_kept.
Qed.

Lemma find_none_exists {A} (p : A -> bool) (l : list A) :
  existsb p l = false -> List.find p l = None.
Proof.
  induction l as [|x l IH]; cbn; [reflexivity|].
  destruct (p x); cbn; [discriminate | exact IH].
Qed.

(** X14: a strategy that names no column of the schema is skipped: the
    rows, and the results recorded, are those of the call without it. *)
Theorem strategies_for_unknown_columns_are_skipped h data columns strategies :
  imputeMissingData h data columns strategies
  = imputeMissingData h data columns (List.filter (names_column columns) strategies).
Proof.
  unfold imputeMissingData.
  assert (Hgen : forall st,
            fold_left (strategyStep data data columns) strategies st
            = fold_left (strategyStep data data columns)
                        (List.filter (names_column columns) strategies) st).
  { induction strategies as [|s strategies IH]; intros st; [reflexivity|].
    cbn [List.filter fold_left]. destruct (names_column columns s) eqn:E.
    - cbn [fold_left]. apply IH.
    - rewrite <- IH. f_equal. destruct st as [h' results]. unfold strategyStep.
      unfold names_column in E. now rewrite (find_none_exists _ _ E). }
  now rewrite Hgen.
Qed.

End Strategies.

(** ** Recommended strategies *)

Module Recommended.
Import JS ETLProcessor DataImputation Notions.



Section Schema.
Context `{DateEngine}.




End Schema.

End Recommended.
